(** * JewelSteps WPPConnect server: session supervisor, inbound relay and
      outbound gateway of [index.js], embedded as Rocq functions.

    The server is a single-threaded Node.js program: every callback
    (timer, adapter event, HTTP request) runs to completion or up to its
    next [await].  The embedding therefore represents the module-level
    variables as one record and every callback as a function on it. *)

From Stdlib Require Import ZArith List String Ascii Bool Lia.
Import ListNotations.
Local Open Scope Z_scope.

(* ================================================================== *)
(** ** Session supervisor: [initializeWhatsApp] and the adapter handlers *)
(* ================================================================== *)

Module Supervisor.

(** [const MAX_RECONNECT_ATTEMPTS = 10;] *)
Definition MAX_RECONNECT_ATTEMPTS : Z := 10.
Global Arguments MAX_RECONNECT_ATTEMPTS : simpl never.

(** The adapter passes its state to the [onStateChange] callback as a
    string; the handler compares it with these four literals. *)
Definition CONNECTED : string := "CONNECTED".
Definition DISCONNECTED : string := "DISCONNECTED".
Definition CONFLICT : string := "CONFLICT".
Definition UNPAIRED : string := "UNPAIRED".

(** The console output of the supervisor, one constructor per message
    (consecutive lines of one message are not told apart). *)
Inductive LogLine :=
| LogInitializing
| LogChromeNotFound
| LogSessionCreated
| LogQRCode
| LogStateChanged (state : string)
| LogConnected
| LogDisconnected
| LogReconnectIn (delay attempt : Z)
| LogMaxReconnect
| LogConflict
| LogUnpaired
| LogConnectionCheckFailed
| LogInitError
| LogRetryIn (delay attempt : Z)
| LogMaxInit.

(** The module-level variables ([client], [isConnected],
    [reconnectAttempts]) together with what the event loop holds for
    the program: the pending [setTimeout] retries, the registered
    [setInterval] liveness checks and the calls of [initializeWhatsApp]
    suspended at [await wppconnect.create(...)].  [probes] counts the
    calls of [client.checkConnection()] and [log] collects the console
    output, oldest line first. *)
Record State := mkState {
  client : option nat;        (* [None] is [null]; [Some k]: the k-th session created *)
  isConnected : bool;
  reconnectAttempts : Z;
  timeouts : list Z;          (* delays (ms) of pending [setTimeout(initializeWhatsApp)] *)
  intervals : list Z;         (* periods (ms) of the registered liveness checks *)
  inFlight : nat;             (* [initializeWhatsApp] calls awaiting [create] *)
  probes : nat;
  log : list LogLine
}.

Definition init : State :=
  mkState None false 0 [] [] 0 0 [].

Definition say (l : list LogLine) (s : State) : State :=
  mkState (client s) (isConnected s) (reconnectAttempts s) (timeouts s)
          (intervals s) (inFlight s) (probes s) (log s ++ l).

Definition set_isConnected (b : bool) (s : State) : State :=
  mkState (client s) b (reconnectAttempts s) (timeouts s)
          (intervals s) (inFlight s) (probes s) (log s).

Definition set_reconnectAttempts (r : Z) (s : State) : State :=
  mkState (client s) (isConnected s) r (timeouts s)
          (intervals s) (inFlight s) (probes s) (log s).

(** [setTimeout(() => { initializeWhatsApp(); }, delay)] *)
Definition setTimeout (delay : Z) (s : State) : State :=
  mkState (client s) (isConnected s) (reconnectAttempts s) (timeouts s ++ [delay])
          (intervals s) (inFlight s) (probes s) (log s).

(** [setInterval(async () => {...}, period)] *)
Definition setInterval (period : Z) (s : State) : State :=
  mkState (client s) (isConnected s) (reconnectAttempts s) (timeouts s)
          (intervals s ++ [period]) (inFlight s) (probes s) (log s).

Definition set_inFlight (n : nat) (s : State) : State :=
  mkState (client s) (isConnected s) (reconnectAttempts s) (timeouts s)
          (intervals s) n (probes s) (log s).

Definition new_client (s : State) : State :=
  mkState (match client s with None => Some 1%nat | Some k => Some (S k) end)
          (isConnected s) (reconnectAttempts s) (timeouts s)
          (intervals s) (inFlight s) (probes s) (log s).

Definition count_probe (s : State) : State :=
  mkState (client s) (isConnected s) (reconnectAttempts s) (timeouts s)
          (intervals s) (inFlight s) (S (probes s)) (log s).

(** *** [initializeWhatsApp]

    The function has one suspension point, [await wppconnect.create].
    [initializeWhatsApp_enter] is the code before it: the logging and
    the check [fs.existsSync(CHROME_PATH)], which returns early when
    the browser binary is missing. *)
Definition initializeWhatsApp_enter (chromeExists : bool) (s : State) : State :=
  let s := say [LogInitializing] s in
  if chromeExists
  then set_inFlight (S (inFlight s)) s
  else say [LogChromeNotFound] s.

(** The [catch (error)] block of [initializeWhatsApp]: the counter is
    incremented first and compared with the maximum afterwards. *)
Definition initializeWhatsApp_catch (s : State) : State :=
  let s := say [LogInitError] s in
  let s := set_reconnectAttempts (reconnectAttempts s + 1) s in
  if reconnectAttempts s <? MAX_RECONNECT_ATTEMPTS then
    let delay := Z.min (reconnectAttempts s * 5000) 30000 in
    setTimeout delay (say [LogRetryIn delay (reconnectAttempts s)] s)
  else
    say [LogMaxInit] s.

(** The code after the [await]: when [create] resolved, [client] is
    assigned, the four handlers are registered and the liveness
    interval is started; when it rejected, the [catch] block runs. *)
Definition initializeWhatsApp_settle (created : bool) (s : State) : State :=
  let s := set_inFlight (Nat.pred (inFlight s)) s in
  if created
  then setInterval 30000 (say [LogSessionCreated] (new_client s))
  else initializeWhatsApp_catch s.

(** [create] resolved and [client] was assigned, but one of the calls
    that follow it inside the [try] ([client.onQRCode],
    [client.onStateChange], [client.onMessage], [client.onStreamChange])
    threw: the [catch] block runs, and the liveness interval, which
    comes last in the [try], is not started. *)
Definition initializeWhatsApp_registration_throws (s : State) : State :=
  let s := set_inFlight (Nat.pred (inFlight s)) s in
  initializeWhatsApp_catch (say [LogSessionCreated] (new_client s)).

(** How one call of [initializeWhatsApp] can end: at the check of the
    browser binary, in the [catch] block because [create] rejected or
    because a registration threw after it resolved, or at the end of
    the [try]. *)
Inductive StartOutcome :=
| ChromeMissing
| CreateRejected
| CreateResolved
| RegistrationThrew.

(** A whole call of [initializeWhatsApp], when no other callback runs
    while it is suspended. *)
Definition initializeWhatsApp (o : StartOutcome) (s : State) : State :=
  match o with
  | ChromeMissing => initializeWhatsApp_enter false s
  | CreateRejected => initializeWhatsApp_settle false (initializeWhatsApp_enter true s)
  | CreateResolved => initializeWhatsApp_settle true (initializeWhatsApp_enter true s)
  | RegistrationThrew =>
      initializeWhatsApp_registration_throws (initializeWhatsApp_enter true s)
  end.

(** *** Adapter handlers *)

(** [client.onQRCode((qrCode) => { ...; reconnectAttempts = 0; })] *)
Definition onQRCode (s : State) : State :=
  set_reconnectAttempts 0 (say [LogQRCode] s).

(** [client.onStateChange((state) => {...})] *)
Definition onStateChange (state : string) (s : State) : State :=
  let s := say [LogStateChanged state] s in
  if (state =? CONNECTED)%string then
    say [LogConnected] (set_reconnectAttempts 0 (set_isConnected true s))
  else if (state =? DISCONNECTED)%string then
    let s := say [LogDisconnected] (set_isConnected false s) in
    if reconnectAttempts s <? MAX_RECONNECT_ATTEMPTS then
      let s := set_reconnectAttempts (reconnectAttempts s + 1) s in
      let delay := Z.min (reconnectAttempts s * 5000) 30000 in
      setTimeout delay (say [LogReconnectIn delay (reconnectAttempts s)] s)
    else
      say [LogMaxReconnect] s
  else if (state =? CONFLICT)%string then say [LogConflict] s
  else if (state =? UNPAIRED)%string then say [LogUnpaired] s
  else s.

(** The body of the [setInterval] callback.  [probeOk] tells whether
    [await client.checkConnection()] returned or threw. *)
Definition livenessCheck (probeOk : bool) (s : State) : State :=
  match client s with
  | Some _ =>
      if isConnected s then
        let s := count_probe s in
        if probeOk then s
        else set_isConnected false (say [LogConnectionCheckFailed] s)
      else s
  | None => s
  end.

(** *** The event loop

    What can happen next: a pending retry expires, a suspended start
    resumes, the adapter calls one of the registered handlers, or a
    liveness interval ticks.  Any pending retry may be the next to
    expire, which includes the order in which Node.js expires them.
    [CreateSettles true] is a start that reaches the end of its [try];
    [RegistrationThrows] is one whose [create] resolved and whose
    registrations did not all succeed.  An adapter event is admitted as
    soon as a client exists: the handlers registered before a
    registration threw stay registered and the later ones are missing,
    so that every run of the program is a run of [step]. *)

Inductive Event :=
| TimeoutFires (i : nat) (chromeExists : bool)  (* the i-th pending retry expires *)
| CreateSettles (created : bool)              (* a suspended start resumes *)
| QRCode
| StateChange (state : string)
| IntervalFires (probeOk : bool)
| RegistrationThrows.                         (* a suspended start resumes and throws *)

Fixpoint remove_nth {A} (i : nat) (l : list A) : option (list A) :=
  match l, i with
  | [], _ => None
  | _ :: l', O => Some l'
  | x :: l', S i' =>
      match remove_nth i' l' with
      | Some r => Some (x :: r)
      | None => None
      end
  end.

Definition clear_timeout (l : list Z) (s : State) : State :=
  mkState (client s) (isConnected s) (reconnectAttempts s) l
          (intervals s) (inFlight s) (probes s) (log s).

(** One callback.  [None]: the event cannot happen in this state (no
    such timer, nothing suspended, no handler registered yet). *)
Definition step (e : Event) (s : State) : option State :=
  match e with
  | TimeoutFires i chromeExists =>
      match remove_nth i (timeouts s) with
      | Some l => Some (initializeWhatsApp_enter chromeExists (clear_timeout l s))
      | None => None
      end
  | CreateSettles created =>
      match inFlight s with
      | O => None
      | S _ => Some (initializeWhatsApp_settle created s)
      end
  | QRCode =>
      match client s with
      | Some _ => Some (onQRCode s)
      | None => None
      end
  | StateChange state =>
      match client s with
      | Some _ => Some (onStateChange state s)
      | None => None
      end
  | IntervalFires probeOk =>
      match intervals s with
      | [] => None
      | _ :: _ => Some (livenessCheck probeOk s)
      end
  | RegistrationThrows =>
      match inFlight s with
      | O => None
      | S _ => Some (initializeWhatsApp_registration_throws s)
      end
  end.

Fixpoint run (tr : list Event) (s : State) : option State :=
  match tr with
  | [] => Some s
  | e :: tr' =>
      match step e s with
      | Some s' => run tr' s'
      | None => None
      end
  end.

(** The [app.listen] callback calls [initializeWhatsApp()] once. *)
Definition boot (chromeExists : bool) : State :=
  initializeWhatsApp_enter chromeExists init.

(** Calls of [initializeWhatsApp] that are scheduled or suspended. *)
Definition outstanding (s : State) : nat :=
  (List.length (timeouts s) + inFlight s)%nat.

(** Events that set the counter back to zero. *)
Definition resets (e : Event) : bool :=
  match e with
  | QRCode => true
  | StateChange state => (state =? CONNECTED)%string
  | _ => false
  end.

(** *** Scenarios and the properties the specification states *)

(** A session whose [create] resolved: handlers and liveness check are
    registered, nothing is scheduled. *)
Definition fresh_session : State :=
  initializeWhatsApp CreateResolved init.

(** The same session after the adapter reported [CONNECTED]. *)
Definition connected_session : State :=
  onStateChange CONNECTED fresh_session.

(** The server starts and the session is created; the adapter reports
    [DISCONNECTED]; the retry and the eight retries that follow it all
    fail in [create], which takes the counter to nine with one retry
    pending; the first session reports [DISCONNECTED] once more; the
    pending retry runs and [create] rejects again. *)
Definition retry_fails : list Event :=
  [TimeoutFires 0 true; CreateSettles false].

Definition flapping_then_failing : list Event :=
  [CreateSettles true; StateChange DISCONNECTED]
    ++ List.concat (repeat retry_fails 8)
    ++ [StateChange DISCONNECTED]
    ++ retry_fails.

(** No event of the trace sets the counter back to zero. *)
Definition reset_free (tr : list Event) : bool :=
  forallb (fun e => negb (resets e)) tr.


(** "The signal is treated as a DISCONNECTED cause": the connection
    flag is cleared and, below the maximum, the counter is incremented
    and one retry is scheduled with the backoff delay. *)
Definition treated_as_disconnect (signal : string) : Prop :=
  forall s,
    isConnected (onStateChange signal s) = false /\
    (reconnectAttempts s < MAX_RECONNECT_ATTEMPTS ->
     reconnectAttempts (onStateChange signal s) = reconnectAttempts s + 1 /\
     timeouts (onStateChange signal s) =
       timeouts s ++ [Z.min ((reconnectAttempts s + 1) * 5000) 30000]).


(** "Every failed start schedules a retry, subject to the maximum." *)
Definition every_failed_start_retries : Prop :=
  forall o s,
    o <> CreateResolved ->
    reconnectAttempts s + 1 < MAX_RECONNECT_ATTEMPTS ->
    List.length (timeouts (initializeWhatsApp o s)) = S (List.length (timeouts s)).

(** The invariant behind the bound on outstanding starts: every retry
    that is scheduled has used up one of the attempts left. *)
Definition budget (s : State) : Z :=
  Z.of_nat (outstanding s) + Z.max 0 (MAX_RECONNECT_ATTEMPTS - reconnectAttempts s).

Definition first_start_pending (s : State) : Prop :=
  client s = None /\ intervals s = [] /\ reconnectAttempts s = 0 /\
  timeouts s = [] /\ inFlight s = 1%nat.

Definition within_budget (s : State) : Prop :=
  budget s <= MAX_RECONNECT_ATTEMPTS \/ first_start_pending s.

End Supervisor.

(* ================================================================== *)
(** ** The JavaScript the handlers rely on *)
(* ================================================================== *)

Module Js.

(** *** Exceptions and console output

    A thrown value.  [message] is the [.message] property; [response]
    and [request] are the properties axios sets on the errors it
    rejects with ([response] carries the HTTP status). *)
Record Error := mkError {
  message : string;
  response : option Z;
  request : bool
}.

Definition TypeError (msg : string) : Error := mkError msg None false.
Definition RangeError (msg : string) : Error := mkError msg None false.

(** How a block of statements ends. *)
Inductive Completion (A : Type) :=
| Normal (a : A)
| Throw (e : Error).
Arguments Normal {A} a.
Arguments Throw {A} e.

(** A computation: what it did to the outside world (console lines,
    HTTP requests, adapter calls, oldest first) and how it ended. *)
Definition Eff (E A : Type) : Type := (list E * Completion A)%type.

Definition ret {E A} (a : A) : Eff E A := ([], Normal a).

Definition throw {E A} (e : Error) : Eff E A := ([], Throw e).

Definition emit {E} (x : E) : Eff E unit := ([x], Normal tt).

Definition bind {E A B} (m : Eff E A) (k : A -> Eff E B) : Eff E B :=
  match m with
  | (w, Normal a) => (w ++ fst (k a), snd (k a))
  | (w, Throw e) => (w, Throw e)
  end.

(** [try { m } catch (error) { h error }] *)
Definition try_catch {E A} (m : Eff E A) (h : Error -> Eff E A) : Eff E A :=
  match m with
  | (w, Normal a) => (w, Normal a)
  | (w, Throw e) => (w ++ fst (h e), snd (h e))
  end.

Definition lift {E A} (c : Completion A) : Eff E A := ([], c).

Declare Scope eff_scope.
Delimit Scope eff_scope with eff.
Notation "x <- m ;; k" := (bind m (fun x => k))
  (at level 61, m at next level, right associativity) : eff_scope.
Notation "m ;; k" := (bind m (fun _ => k))
  (at level 61, right associativity) : eff_scope.

(** *** Values of a parsed JSON body *)

(** A property of [req.body]: absent ([undefined]) or a JSON value.
    The handlers only test numbers for being zero, so a number is kept
    as an integer; objects and arrays are not told apart. *)
Inductive Value :=
| Undefined
| Null
| Bool (b : bool)
| Num (n : Z)
| Str (s : string)
| Obj.

(** [!!v] *)
Definition truthy (v : Value) : bool :=
  match v with
  | Undefined | Null => false
  | Bool b => b
  | Num n => negb (n =? 0)
  | Str s => negb (s =? "")%string
  | Obj => true
  end.

(** [v === s] for a string [s] *)
Definition strict_eq_string (v : Value) (s : string) : bool :=
  match v with
  | Str v' => (v' =? s)%string
  | _ => false
  end.

(** [a || b] on strings, where [None] is [undefined] *)
Definition or_else (a : option string) (b : string) : string :=
  match a with
  | Some s => if (s =? "")%string then b else s
  | None => b
  end.

Definition truthy_string (a : option string) : bool :=
  match a with
  | Some s => negb (s =? "")%string
  | None => false
  end.

(** *** Strings *)

Definition is_digit (c : ascii) : bool :=
  ((48 <=? nat_of_ascii c) && (nat_of_ascii c <=? 57))%nat.

Fixpoint digits_only (s : string) : bool :=
  match s with
  | EmptyString => true
  | String c s' => is_digit c && digits_only s'
  end.

(** [s.replace(/[^0-9]/g, '')] *)
Fixpoint strip_non_digits (s : string) : string :=
  match s with
  | EmptyString => EmptyString
  | String c s' =>
      if is_digit c then String c (strip_non_digits s') else strip_non_digits s'
  end.

Fixpoint drop (n : nat) (s : string) : string :=
  match n, s with
  | O, _ => s
  | S n', String _ s' => drop n' s'
  | S _, EmptyString => EmptyString
  end.

(** [s.replace(pat, rep)] with a string pattern: only the first
    occurrence is replaced. *)
Fixpoint replace_first (pat rep s : string) : string :=
  if String.prefix pat s then (rep ++ drop (String.length pat) s)%string
  else match s with
       | EmptyString => EmptyString
       | String c s' => String c (replace_first pat rep s')
       end.

(** *** [Date.prototype.toISOString]

    Time values are integers, in milliseconds since the epoch.  The
    functions are those of the ECMAScript specification (section "Time
    Values and Time Range"); [/] and [mod] on [Z] round towards minus
    infinity, as the specification's [floor] and [modulo] do. *)

Definition msPerDay : Z := 86400000.

Definition Day (t : Z) : Z := t / msPerDay.

Definition DaysInYear (y : Z) : Z :=
  if negb (y mod 4 =? 0) then 365
  else if negb (y mod 100 =? 0) then 366
  else if negb (y mod 400 =? 0) then 365
  else 366.

Definition DayFromYear (y : Z) : Z :=
  365 * (y - 1970) + (y - 1969) / 4 - (y - 1901) / 100 + (y - 1601) / 400.

(** The largest [y] with [DayFromYear y <= Day t]: found next to the
    estimate that the mean length of a year gives. *)
Definition YearFromTime (t : Z) : Z :=
  let y := 1970 + (400 * Day t) / 146097 in
  if DayFromYear (y + 1) <=? Day t then y + 1
  else if DayFromYear y <=? Day t then y
  else y - 1.

Definition InLeapYear (t : Z) : Z :=
  if DaysInYear (YearFromTime t) =? 366 then 1 else 0.

Definition DayWithinYear (t : Z) : Z :=
  Day t - DayFromYear (YearFromTime t).

Definition MonthFromTime (t : Z) : Z :=
  let d := DayWithinYear t in
  let l := InLeapYear t in
  if d <? 31 then 0
  else if d <? 59 + l then 1
  else if d <? 90 + l then 2
  else if d <? 120 + l then 3
  else if d <? 151 + l then 4
  else if d <? 181 + l then 5
  else if d <? 212 + l then 6
  else if d <? 243 + l then 7
  else if d <? 273 + l then 8
  else if d <? 304 + l then 9
  else if d <? 334 + l then 10
  else 11.

Definition DateFromTime (t : Z) : Z :=
  let d := DayWithinYear t in
  let l := InLeapYear t in
  match MonthFromTime t with
  | 0 => d + 1
  | 1 => d - 30
  | 2 => d - 58 - l
  | 3 => d - 89 - l
  | 4 => d - 119 - l
  | 5 => d - 150 - l
  | 6 => d - 180 - l
  | 7 => d - 211 - l
  | 8 => d - 242 - l
  | 9 => d - 272 - l
  | 10 => d - 303 - l
  | _ => d - 333 - l
  end.

Definition HourFromTime (t : Z) : Z := (t / 3600000) mod 24.
Definition MinFromTime (t : Z) : Z := (t / 60000) mod 60.
Definition SecFromTime (t : Z) : Z := (t / 1000) mod 60.
Definition msFromTime (t : Z) : Z := t mod 1000.

(** The decimal digit of the units of [n]. *)
Definition digit (n : Z) : ascii :=
  ascii_of_nat (48 + Z.to_nat (n mod 10)).

(** The last [w] decimal digits of [n]: for [0 <= n < 10 ^ w] this is
    the decimal numeral of [n] padded with zeros to width [w]. *)
Fixpoint pad (w : nat) (n : Z) : string :=
  match w with
  | O => EmptyString
  | S w' => (pad w' (n / 10) ++ String (digit n) EmptyString)%string
  end.

(** Years from 0 to 9999 are written with four digits, all others with
    a sign and six digits. *)
Definition year_string (y : Z) : string :=
  if (0 <=? y) && (y <=? 9999) then pad 4 y
  else ((if (y <? 0)%Z then "-" else "+") ++ pad 6 (Z.abs y))%string.

(** [new Date(t).toISOString()].  A time value beyond 8.64e15 ms makes
    the date invalid, and [toISOString] throws a [RangeError]. *)
Definition toISOString (t : Z) : Completion string :=
  if Z.abs t <=? 8640000000000000 then
    Normal (year_string (YearFromTime t) ++ "-" ++ pad 2 (MonthFromTime t + 1)
            ++ "-" ++ pad 2 (DateFromTime t)
            ++ "T" ++ pad 2 (HourFromTime t)
            ++ ":" ++ pad 2 (MinFromTime t)
            ++ ":" ++ pad 2 (SecFromTime t)
            ++ "." ++ pad 3 (msFromTime t) ++ "Z")%string
  else Throw (RangeError "Invalid time value").

(** The shape [YYYY-MM-DD HH:MM:SS]. *)
Definition is_timestamp_format (s : string) : bool :=
  match s with
  | String y1 (String y2 (String y3 (String y4 (String d1
    (String m1 (String m2 (String d2
    (String a1 (String a2 (String sp
    (String h1 (String h2 (String c1
    (String n1 (String n2 (String c2
    (String s1 (String s2 EmptyString)))))))))))))))))) =>
      is_digit y1 && is_digit y2 && is_digit y3 && is_digit y4 &&
      Ascii.eqb d1 "-" && is_digit m1 && is_digit m2 &&
      Ascii.eqb d2 "-" && is_digit a1 && is_digit a2 &&
      Ascii.eqb sp " " && is_digit h1 && is_digit h2 &&
      Ascii.eqb c1 ":" && is_digit n1 && is_digit n2 &&
      Ascii.eqb c2 ":" && is_digit s1 && is_digit s2
  | _ => false
  end.

End Js.

(* ================================================================== *)
(** ** Inbound relay: [client.onMessage] and [sendToCRM] *)
(* ================================================================== *)

Module Relay.
Import Js.
Local Open Scope string_scope.
Local Open Scope eff_scope.

(** [process.env.X || fallback] *)
Definition env_or (v : option string) (fallback : string) : string :=
  or_else v fallback.

(** The configuration the relay reads. *)
Record Config := mkConfig {
  SYNC_KEY : string;
  CRM_WEBHOOK : string
}.

(** The configuration as [index.js] derives it from the environment. *)
Definition config_of_env (sync_key crm_webhook : option string) : Config :=
  mkConfig (env_or sync_key "")
           (env_or crm_webhook "https://crm.jewelsteps.com/api/whatsapp/sync.php").

(** The properties of the adapter's message object that the handler
    reads; [None] is [undefined].  [lat] and [lng] hold the text the
    template literal renders for the coordinates, [timestamp] the epoch
    seconds. *)
Record Message := mkMessage {
  isGroupMsg : bool;
  from : option string;
  body : option string;
  caption : option string;
  type : option string;
  filename : option string;
  lat : string;
  lng : string;
  timestamp : option Z
}.

(** The object posted to the CRM webhook. *)
Record Payload := mkPayload {
  sync_key : string;
  phone : string;
  message : string;
  sender : string;
  timestamp_text : string
}.

(** What the webhook request comes to. *)
Inductive HttpOutcome :=
| Responded (status : Z)            (* the server answered *)
| NoResponse                        (* sent, no answer: network error or timeout *)
| NotSent (reason : string).        (* the request could not be set up *)

Inductive Effect :=
| Post (url : string) (data : Payload) (timeout : Z)
| LogReceived (phone : string)
| LogForwarded
| ErrStatus (status : Z)            (* "CRM webhook returned status ..." *)
| ErrResponse (status : Z)          (* "CRM webhook error (...)" *)
| ErrNoResponse                     (* "No response from CRM webhook ..." *)
| ErrSending (reason : string)      (* "Error sending to CRM webhook: ..." *)
| ErrForwardFailed (phone : string) (* "Failed to forward message from ..." *)
| ErrProcessing (e : Error).        (* "Error processing incoming message" *)

Definition is_error_line (e : Effect) : bool :=
  match e with
  | ErrStatus _ | ErrResponse _ | ErrNoResponse | ErrSending _
  | ErrForwardFailed _ | ErrProcessing _ => true
  | _ => false
  end.

Definition is_post (e : Effect) : bool :=
  match e with
  | Post _ _ _ => true
  | _ => false
  end.

(** [axios.post(url, data, { timeout, validateStatus })]: the promise
    resolves with the response when [validateStatus] accepts the
    status, and rejects otherwise. *)
Definition axios_post (net : Payload -> HttpOutcome) (url : string) (data : Payload)
    (timeout : Z) (validateStatus : Z -> bool) : Eff Effect Z :=
  emit (Post url data timeout) ;;
  match net data with
  | Responded status =>
      if validateStatus status then ret status
      else throw (mkError "Request failed" (Some status) true)
  | NoResponse => throw (mkError "Network Error" None true)
  | NotSent reason => throw (mkError reason None false)
  end.

(** [async function sendToCRM(data)] *)
Definition sendToCRM (cfg : Config) (net : Payload -> HttpOutcome) (data : Payload)
    : Eff Effect bool :=
  try_catch
    (status <- axios_post net (CRM_WEBHOOK cfg) data 10000 (fun status => (status <? 500)%Z) ;;
     if (status =? 200)%Z
     then emit LogForwarded ;; ret true
     else emit (ErrStatus status) ;; ret false)
    (fun error =>
       (match response error with
        | Some status => emit (ErrResponse status)
        | None =>
            if request error then emit ErrNoResponse
            else emit (ErrSending (Js.message error))
        end) ;;
       ret false).

(** The text extracted from the message. *)
Definition messageText (m : Message) : string :=
  if truthy_string (body m) then or_else (body m) ""
  else if truthy_string (caption m) then or_else (caption m) ""
  else if match type m with
          | Some t => (t =? "ptt") || (t =? "audio")
          | None => false
          end
  then "[Audio Message]"
  else if match type m with
          | Some t => (t =? "image") || (t =? "video")
          | None => false
          end
  then or_else (caption m) "[Media Message]"
  else if match type m with Some t => t =? "document" | None => false end
  then or_else (caption m) ("[Document: " ++ or_else (filename m) "File" ++ "]")
  else if match type m with Some t => t =? "location" | None => false end
  then "[Location: " ++ lat m ++ ", " ++ lng m ++ "]"
  else "[" ++ or_else (type m) "Unsupported" ++ " Message]".

(** [new Date(...).toISOString().slice(0, 19).replace('T', ' ')], of
    [message.timestamp * 1000] when the timestamp is truthy and of the
    current time [now] (in milliseconds) otherwise. *)
Definition instant (m : Message) (now : Z) : Z :=
  match timestamp m with
  | Some ts => if (ts =? 0)%Z then now else (ts * 1000)%Z
  | None => now
  end.

Definition timestampText (m : Message) (now : Z) : Eff Effect string :=
  iso <- lift (toISOString (instant m now)) ;;
  ret (replace_first "T" " " (substring 0 19 iso)).

(** [client.onMessage(async (message) => {...})] *)
Definition onMessage (cfg : Config) (net : Payload -> HttpOutcome) (now : Z)
    (m : Message) : Eff Effect unit :=
  try_catch
    (if isGroupMsg m ||
        match from m with Some f => f =? "status@broadcast" | None => false end
     then ret tt
     else
       phone <- match from m with
                | Some f => ret (replace_first "@c.us" "" f)
                | None => throw (TypeError "Cannot read properties of undefined")
                end ;;
       timestamp <- timestampText m now ;;
       emit (LogReceived phone) ;;
       success <- sendToCRM cfg net
                    (mkPayload (SYNC_KEY cfg) phone (messageText m) "customer" timestamp) ;;
       if success then ret tt else emit (ErrForwardFailed phone))
    (fun error => emit (ErrProcessing error)).

(** The payloads an execution posted. *)
Fixpoint posted (w : list Effect) : list Payload :=
  match w with
  | [] => []
  | Post _ data _ :: w' => data :: posted w'
  | _ :: w' => posted w'
  end.

(** *** Scenarios and the properties the specification states *)

(** The event of the specification's example. *)
Definition example_message : Message :=
  mkMessage false (Some "919999999999@c.us") (Some "Hi") None (Some "chat") None
            "" "" (Some 1700000000).

(** A direct message whose sender address does not end in [@c.us]. *)
Definition lid_message : Message :=
  mkMessage false (Some "919999999999@lid") (Some "Hi") None (Some "chat") None
            "" "" (Some 1700000000).

(** "Every forwarded payload has a digits-only address." *)
Definition forwarded_address_digits_only : Prop :=
  forall cfg net now m p,
    In p (posted (fst (onMessage cfg net now m))) -> digits_only (phone p) = true.

(** The time values whose year lies between 0 and 9999. *)
Definition four_digit_year (t : Z) : Prop :=
  -62167219200000 <= t < 253402300800000.

(** A webhook call that failed: a status outside 200..299, or no answer. *)
Definition delivery_failed (o : HttpOutcome) : Prop :=
  match o with
  | Responded status => ~ (200 <= status <= 299)
  | NoResponse => True
  | NotSent _ => True
  end.

End Relay.

(* ================================================================== *)
(** ** Outbound gateway: [POST /send-message] *)
(* ================================================================== *)

Module Gateway.
Import Js.
Local Open Scope string_scope.
Local Open Scope eff_scope.

(** [const { key, phone, message } = req.body;], where [req.body] is
    the object [express.json()] leaves on the request. *)
Record Request := mkRequest {
  key : Value;
  phone : Value;
  message : Value
}.

(** The JSON object of the answer; [None]: the property is not set. *)
Record Json := mkJson {
  ok : bool;
  error : option string;
  info : option string;        (* the property [message] *)
  sent_to : option string;     (* the property [phone] *)
  connected : option bool
}.

Record Response := mkResponse {
  status : Z;
  json : Json
}.

Inductive Effect :=
| WarnInvalidKey
| SendText (chatId : string) (text : Value)
| LogSent (phone : string)
| ErrSend (e : Error)
| ErrEndpoint (e : Error).

(** [phone.replace(/[^0-9]/g, '')]: only a string has the method. *)
Definition replace_non_digits (v : Value) : Eff Effect string :=
  match v with
  | Str s => ret (strip_non_digits s)
  | _ => throw (TypeError "phone.replace is not a function")
  end.

Definition message_or (e : Error) (fallback : string) : string :=
  or_else (Some (Js.message e)) fallback.

(** The handler of [app.post('/send-message', ...)].  [SYNC_KEY] is the
    configured key, [s] holds the module-level [client] and
    [isConnected], and [sendText] is what the adapter's
    [client.sendText(chatId, message)] comes to. *)
Definition send_message (SYNC_KEY : string) (s : Supervisor.State)
    (sendText : string -> Value -> Completion unit) (req : Request)
    : Eff Effect Response :=
  try_catch
    (if negb (truthy (key req)) || negb (strict_eq_string (key req) SYNC_KEY) then
       emit WarnInvalidKey ;;
       ret (mkResponse 401 (mkJson false (Some "Invalid sync key") None None None))
     else if negb (truthy (phone req)) || negb (truthy (message req)) then
       ret (mkResponse 400
              (mkJson false (Some "Phone and message are required") None None None))
     else if match Supervisor.client s with None => true | Some _ => false end
             || negb (Supervisor.isConnected s) then
       ret (mkResponse 503
              (mkJson false (Some "WhatsApp not connected. Please scan QR code first.")
                      None None (Some false)))
     else
       formattedPhone <- replace_non_digits (phone req) ;;
       if (Z.of_nat (String.length formattedPhone) <? 10)%Z then
         ret (mkResponse 400
                (mkJson false (Some "Invalid phone number format") None None None))
       else
         let chatId := formattedPhone ++ "@c.us" in
         try_catch
           (emit (SendText chatId (message req)) ;;
            lift (sendText chatId (message req)) ;;
            emit (LogSent formattedPhone) ;;
            ret (mkResponse 200
                   (mkJson true None (Some "Message sent successfully")
                           (Some formattedPhone) None)))
           (fun sendError =>
              emit (ErrSend sendError) ;;
              ret (mkResponse 500
                     (mkJson false
                        (Some (message_or sendError "Failed to send message via WhatsApp"))
                        None None None))))
    (fun error =>
       emit (ErrEndpoint error) ;;
       ret (mkResponse 500
              (mkJson false (Some (message_or error "Internal server error"))
                      None None None))).

(** *** The order of the checks, in words *)

Definition connected_now (s : Supervisor.State) : bool :=
  match Supervisor.client s with
  | Some _ => Supervisor.isConnected s
  | None => false
  end.

Definition digits_of (v : Value) : string :=
  match v with
  | Str s => strip_non_digits s
  | _ => ""
  end.

Definition too_short (v : Value) : bool :=
  (Z.of_nat (String.length (digits_of v)) <? 10)%Z.

Definition is_string (v : Value) : bool :=
  match v with
  | Str _ => true
  | _ => false
  end.

Definition authorized (SYNC_KEY : string) (req : Request) : bool :=
  truthy (key req) && strict_eq_string (key req) SYNC_KEY.

(** The status the specification's order of checks gives: the secret
    first, then the whole validation of the request (presence of the
    fields and length of the digits-only address), then the connection,
    then the send. *)
Definition status_as_specified (SYNC_KEY : string) (s : Supervisor.State)
    (sendText : string -> Value -> Completion unit) (req : Request) : Z :=
  if negb (authorized SYNC_KEY req) then 401
  else if negb (truthy (phone req)) || negb (truthy (message req))
          || too_short (phone req) then 400
  else if negb (connected_now s) then 503
  else match sendText (digits_of (phone req) ++ "@c.us") (message req) with
       | Normal _ => 200
       | Throw _ => 500
       end.

(** The order of the handler: the secret, the presence of the fields,
    the connection, the type and the length of the address, the send. *)
Definition status_as_implemented (SYNC_KEY : string) (s : Supervisor.State)
    (sendText : string -> Value -> Completion unit) (req : Request) : Z :=
  if negb (authorized SYNC_KEY req) then 401
  else if negb (truthy (phone req)) || negb (truthy (message req)) then 400
  else if negb (connected_now s) then 503
  else if negb (is_string (phone req)) then 500
  else if too_short (phone req) then 400
  else match sendText (digits_of (phone req) ++ "@c.us") (message req) with
       | Normal _ => 200
       | Throw _ => 500
       end.

(** The status the handler answers with; it always answers. *)
Definition answered (r : Eff Effect Response) : option Z :=
  match snd r with
  | Normal resp => Some (status resp)
  | Throw _ => None
  end.

Fixpoint sends (w : list Effect) : list (string * Value) :=
  match w with
  | [] => []
  | SendText chatId text :: w' => (chatId, text) :: sends w'
  | _ :: w' => sends w'
  end.

(** A valid request with a three-digit address, while no session exists. *)
Definition short_phone_request : Request :=
  mkRequest (Str "secret") (Str "123") (Str "hello").

Definition always_sent : string -> Value -> Completion unit :=
  fun _ _ => Normal tt.

End Gateway.

(* ================================================================== *)
(** ** Start-up checks and shutdown *)
(* ================================================================== *)

Module Startup.
Import Js.
Local Open Scope string_scope.

(** The value the first check compares [SYNC_KEY] with. *)
Definition placeholder_key : string :=
  "your-secret-sync-key-change-this-in-production".

(** [s.includes(pat)] *)
Fixpoint includes (pat s : string) : bool :=
  String.prefix pat s ||
  match s with
  | EmptyString => false
  | String _ s' => includes pat s'
  end.

Inductive Warning :=
| WarnSyncKey       (* "SYNC_KEY not set or using default value ..." *)
| WarnWebhook.      (* "CRM_WEBHOOK may not be configured correctly ..." *)

(** The two [if] statements that follow the reading of the environment;
    the server goes on whatever they find. *)
Definition startup_warnings (cfg : Relay.Config) : list Warning :=
  ((if negb (truthy (Str (Relay.SYNC_KEY cfg)))
       || (Relay.SYNC_KEY cfg =? placeholder_key)
    then [WarnSyncKey] else [])
   ++
   (if negb (truthy (Str (Relay.CRM_WEBHOOK cfg)))
       || includes "jewelsteps.com" (Relay.CRM_WEBHOOK cfg)
    then [WarnWebhook] else []))%list.

End Startup.

Module Shutdown.
Import Js.
Local Open Scope eff_scope.

Inductive Signal := SIGTERM | SIGINT.

Inductive Effect :=
| LogSignal (sig : Signal)
| Close                       (* [client.close()] is called *)
| LogClosed
| ErrClose (e : Error)
| Exit (code : Z).            (* [process.exit(code)] *)

(** [process.on('SIGTERM' | 'SIGINT', async () => {...})]; [close] is
    what [await client.close()] comes to. *)
Definition on_signal (sig : Signal) (s : Supervisor.State) (close : Completion unit)
    : Eff Effect unit :=
  emit (LogSignal sig) ;;
  match Supervisor.client s with
  | Some _ =>
      try_catch (emit Close ;; lift close ;; emit LogClosed)
                (fun error => emit (ErrClose error))
  | None => ret tt
  end ;;
  emit (Exit 0).

End Shutdown.

(* ================================================================== *)
(** ** Runs of the supervisor and readings of the timestamp *)
(* ================================================================== *)

Module Runs.
Import Supervisor.

(** The states the server can be in. *)
Definition reachable (s : State) : Prop :=
  exists chromeExists tr, run tr (boot chromeExists) = Some s.

(** The sessions created so far. *)
Definition sessions (s : State) : nat :=
  match client s with
  | Some k => k
  | None => 0%nat
  end.

(** The starts of a trace that reached the end of their [try]:
    [create] resolved and every registration succeeded. *)
Definition created (tr : list Event) : nat :=
  List.length (filter (fun e => match e with CreateSettles true => true | _ => false end) tr).

(** The starts of a trace whose [create] resolved and whose
    registrations threw. *)
Definition thrown (tr : list Event) : nat :=
  List.length (filter (fun e => match e with RegistrationThrows => true | _ => false end) tr).

(** Traces in which no session is ever created: retries expire and
    [create] rejects. *)
Definition no_session (tr : list Event) : bool :=
  forallb (fun e => match e with
                    | TimeoutFires _ _ => true
                    | CreateSettles false => true
                    | _ => false
                    end) tr.

(** [n] times: the adapter reports [DISCONNECTED] and then shows a QR code. *)
Fixpoint flap_and_reset (n : nat) : list Event :=
  match n with
  | O => []
  | S n' => StateChange DISCONNECTED :: QRCode :: flap_and_reset n'
  end.

(** Ten disconnections, then all ten retries fail in [create]. *)
Definition ten_flaps_ten_failures : list Event :=
  CreateSettles true :: repeat (StateChange DISCONNECTED) 10
    ++ List.concat (repeat retry_fails 10).

(** Every pending retry is due within 5 to 30 seconds, and the counter
    is not negative. *)
Definition timers_in_range (s : State) : Prop :=
  0 <= reconnectAttempts s /\
  Forall (fun d => 5000 <= d <= 30000) (timeouts s).

(** The counter and the outstanding starts together stay within twice
    the maximum. *)
Definition within_double (s : State) : Prop :=
  within_budget s /\
  0 <= reconnectAttempts s /\
  reconnectAttempts s + Z.of_nat (outstanding s) <= 2 * MAX_RECONNECT_ATTEMPTS.

(** While no session exists: at most one start is outstanding, and none
    once the counter is at the maximum. *)
Definition one_at_a_time (s : State) : Prop :=
  client s = None /\ intervals s = [] /\ isConnected s = false /\
  0 <= reconnectAttempts s <= MAX_RECONNECT_ATTEMPTS /\
  (outstanding s <= 1)%nat /\
  (reconnectAttempts s = MAX_RECONNECT_ATTEMPTS -> outstanding s = 0%nat).

End Runs.

Module Reading.
Import Js.

(** The number a string of decimal digits denotes, most significant
    digit first; [acc] is the number read so far. *)
Fixpoint read_digits (acc : Z) (s : string) : Z :=
  match s with
  | EmptyString => acc
  | String c s' => read_digits (10 * acc + (Z.of_nat (nat_of_ascii c) - 48)) s'
  end.

(** The days of a year that precede its month [m] (1 to 12). *)
Definition days_before_month (leap : Z) (m : Z) : Z :=
  match m with
  | 1 => 0
  | 2 => 31
  | 3 => 59 + leap
  | 4 => 90 + leap
  | 5 => 120 + leap
  | 6 => 151 + leap
  | 7 => 181 + leap
  | 8 => 212 + leap
  | 9 => 243 + leap
  | 10 => 273 + leap
  | 11 => 304 + leap
  | _ => 334 + leap
  end.

(** The epoch second that [YYYY-MM-DD HH:MM:SS] denotes, read as UTC. *)
Definition epoch_second (s : string) : Z :=
  let y := read_digits 0 (substring 0 4 s) in
  let m := read_digits 0 (substring 5 2 s) in
  let d := read_digits 0 (substring 8 2 s) in
  let hh := read_digits 0 (substring 11 2 s) in
  let mm := read_digits 0 (substring 14 2 s) in
  let ss := read_digits 0 (substring 17 2 s) in
  let leap := if DaysInYear y =? 366 then 1 else 0 in
  (DayFromYear y + days_before_month leap m + (d - 1)) * 86400
  + hh * 3600 + mm * 60 + ss.

End Reading.

(* ================================================================== *)
(** ** Properties of the session supervisor *)
(* ================================================================== *)

Section SupervisorFacts.
Import Supervisor.

Lemma remove_nth_length {A} (i : nat) (l r : list A) :
  remove_nth i l = Some r -> List.length l = S (List.length r).
Proof.
  revert i r; induction l as [|x l IH]; intros [|i] r H; simpl in H; try discriminate.
  - now inversion H.
  - destruct (remove_nth i l) as [r'|] eqn:E; [|discriminate].
    inversion H; subst; simpl. now rewrite (IH _ _ E).
Qed.

(** The [DISCONNECTED] branch, with the counter below the maximum. *)
Lemma onStateChange_disconnected_below (s : State) :
  reconnectAttempts s < MAX_RECONNECT_ATTEMPTS ->
  isConnected (onStateChange DISCONNECTED s) = false /\
  reconnectAttempts (onStateChange DISCONNECTED s) = reconnectAttempts s + 1 /\
  timeouts (onStateChange DISCONNECTED s) =
    timeouts s ++ [Z.min ((reconnectAttempts s + 1) * 5000) 30000] /\
  inFlight (onStateChange DISCONNECTED s) = inFlight s.
Proof.
  intros H. unfold onStateChange; simpl.
  apply Z.ltb_lt in H. rewrite H. simpl. auto.
Qed.

(** The [DISCONNECTED] branch, with the counter at or above the maximum. *)
Lemma onStateChange_disconnected_at_max (s : State) :
  MAX_RECONNECT_ATTEMPTS <= reconnectAttempts s ->
  reconnectAttempts (onStateChange DISCONNECTED s) = reconnectAttempts s /\
  timeouts (onStateChange DISCONNECTED s) = timeouts s /\
  inFlight (onStateChange DISCONNECTED s) = inFlight s.
Proof.
  intros H. unfold onStateChange; simpl.
  apply Z.ltb_ge in H. rewrite H. simpl. auto.
Qed.

(** The [catch] block always increments; it schedules only below the maximum. *)
Lemma catch_counter (s : State) :
  reconnectAttempts (initializeWhatsApp_catch s) = reconnectAttempts s + 1.
Proof.
  unfold initializeWhatsApp_catch; simpl.
  destruct (reconnectAttempts s + 1 <? MAX_RECONNECT_ATTEMPTS); reflexivity.
Qed.

Lemma catch_timeouts (s : State) :
  timeouts (initializeWhatsApp_catch s) =
    if reconnectAttempts s + 1 <? MAX_RECONNECT_ATTEMPTS
    then timeouts s ++ [Z.min ((reconnectAttempts s + 1) * 5000) 30000]
    else timeouts s.
Proof.
  unfold initializeWhatsApp_catch; simpl.
  destruct (reconnectAttempts s + 1 <? MAX_RECONNECT_ATTEMPTS); reflexivity.
Qed.

Lemma catch_frame (s : State) :
  inFlight (initializeWhatsApp_catch s) = inFlight s /\
  isConnected (initializeWhatsApp_catch s) = isConnected s /\
  client (initializeWhatsApp_catch s) = client s /\
  intervals (initializeWhatsApp_catch s) = intervals s.
Proof.
  unfold initializeWhatsApp_catch; simpl.
  destruct (reconnectAttempts s + 1 <? MAX_RECONNECT_ATTEMPTS); simpl; auto.
Qed.

(** What a start does that throws while it registers its handlers. *)
Lemma registration_throws_effect (s : State) :
  reconnectAttempts (initializeWhatsApp_registration_throws s) = reconnectAttempts s + 1 /\
  timeouts (initializeWhatsApp_registration_throws s) =
    (if reconnectAttempts s + 1 <? MAX_RECONNECT_ATTEMPTS
     then timeouts s ++ [Z.min ((reconnectAttempts s + 1) * 5000) 30000]
     else timeouts s) /\
  inFlight (initializeWhatsApp_registration_throws s) = Nat.pred (inFlight s) /\
  isConnected (initializeWhatsApp_registration_throws s) = isConnected s /\
  client (initializeWhatsApp_registration_throws s) =
    Some (match client s with None => 1%nat | Some k => S k end) /\
  intervals (initializeWhatsApp_registration_throws s) = intervals s.
Proof.
  unfold initializeWhatsApp_registration_throws.
  rewrite catch_counter, catch_timeouts.
  destruct (catch_frame (say [LogSessionCreated]
              (new_client (set_inFlight (Nat.pred (inFlight s)) s))))
    as (Hi & Hb & Hk & Hn).
  rewrite Hi, Hb, Hk, Hn. simpl.
  destruct (client s); repeat split.
Qed.

(** The state-change handler alone never takes the counter past the maximum. *)
Lemma onStateChange_keeps_bound (state : string) (s : State) :
  0 <= reconnectAttempts s <= MAX_RECONNECT_ATTEMPTS ->
  0 <= reconnectAttempts (onStateChange state s) <= MAX_RECONNECT_ATTEMPTS.
Proof.
  intros H. unfold onStateChange; simpl.
  destruct (state =? CONNECTED)%string; simpl; [unfold MAX_RECONNECT_ATTEMPTS; lia|].
  destruct (state =? DISCONNECTED)%string; simpl.
  - destruct (reconnectAttempts s <? MAX_RECONNECT_ATTEMPTS) eqn:E; simpl; [|lia].
    apply Z.ltb_lt in E. lia.
  - destruct (state =? CONFLICT)%string; simpl; [lia|].
    destruct (state =? UNPAIRED)%string; simpl; lia.
Qed.

(** Once the counter is at the maximum, neither path schedules a retry. *)
Lemma nothing_scheduled_at_max (s : State) :
  MAX_RECONNECT_ATTEMPTS <= reconnectAttempts s ->
  timeouts (onStateChange DISCONNECTED s) = timeouts s /\
  timeouts (initializeWhatsApp_catch s) = timeouts s.
Proof.
  intros H. split.
  - now apply onStateChange_disconnected_at_max.
  - rewrite catch_timeouts.
    destruct (reconnectAttempts s + 1 <? MAX_RECONNECT_ATTEMPTS) eqn:E; [|reflexivity].
    apply Z.ltb_lt in E. lia.
Qed.

(** C1.  The reconnect counter is meant never to exceed the maximum of
    ten.  In the run [flapping_then_failing] it reaches eleven: the
    state-change handler takes it from nine to ten and schedules a
    retry, and the [catch] block of the retry that fails next
    increments it without comparing first.  The state-change handler
    itself keeps the bound ([onStateChange_keeps_bound]), and at the
    maximum neither path schedules anything
    ([nothing_scheduled_at_max]). *)
Theorem C1_counter_passes_maximum :
  exists s,
    run flapping_then_failing (boot true) = Some s /\
    reconnectAttempts s = 11 /\
    MAX_RECONNECT_ATTEMPTS < reconnectAttempts s.
Proof.
  eexists. split; [vm_compute; reflexivity|].
  simpl. repeat split; reflexivity.
Qed.

(** C2.  When the counter becomes [n], with [1 <= n <= 10], the retry
    is scheduled after [min (n * 5000) 30000] milliseconds, by the
    state-change handler and (for [n < 10]) by the [catch] block; the
    delay does not decrease when the counter grows and never exceeds
    30000; ten disconnections in a row schedule retries after 5, 10,
    15, 20, 25, 30, 30, 30, 30 and 30 seconds. *)
Theorem C2_reconnect_delay (s : State) (n : Z)
  (Hn : reconnectAttempts s + 1 = n)
  (Hrange : 1 <= n <= MAX_RECONNECT_ATTEMPTS) :
  timeouts (onStateChange DISCONNECTED s) = timeouts s ++ [Z.min (n * 5000) 30000] /\
  (n < MAX_RECONNECT_ATTEMPTS ->
   timeouts (initializeWhatsApp_catch s) = timeouts s ++ [Z.min (n * 5000) 30000]) /\
  (forall s2, n <= reconnectAttempts s2 + 1 <= MAX_RECONNECT_ATTEMPTS ->
     last (timeouts (onStateChange DISCONNECTED s)) 0
       <= last (timeouts (onStateChange DISCONNECTED s2)) 0 <= 30000) /\
  (exists s10,
     run (repeat (StateChange DISCONNECTED) 10) fresh_session = Some s10 /\
     timeouts s10 =
       [5000; 10000; 15000; 20000; 25000; 30000; 30000; 30000; 30000; 30000]).
Proof.
  assert (Hd : forall t, reconnectAttempts t + 1 <= MAX_RECONNECT_ATTEMPTS ->
            timeouts (onStateChange DISCONNECTED t) =
              timeouts t ++ [Z.min ((reconnectAttempts t + 1) * 5000) 30000]).
  { intros t Ht. apply onStateChange_disconnected_below. lia. }
  subst n. repeat split.
  - apply Hd; lia.
  - intros Hlt. rewrite catch_timeouts.
    apply Z.ltb_lt in Hlt. now rewrite Hlt.
  - rewrite !Hd, !last_last by lia. lia.
  - rewrite Hd, last_last by lia. lia.
  - eexists. split; [vm_compute; reflexivity|reflexivity].
Qed.

Lemma C2_reconnect_delay_witness :
  reconnectAttempts fresh_session + 1 = 1 /\
  1 <= 1 <= MAX_RECONNECT_ATTEMPTS /\
  timeouts (onStateChange DISCONNECTED fresh_session) = [] ++ [Z.min (1 * 5000) 30000].
Proof.
  assert (Hn : reconnectAttempts fresh_session + 1 = 1) by reflexivity.
  assert (Hr : 1 <= 1 <= MAX_RECONNECT_ATTEMPTS) by (unfold MAX_RECONNECT_ATTEMPTS; lia).
  split; [exact Hn|split; [exact Hr|]].
  exact (proj1 (C2_reconnect_delay fresh_session 1 Hn Hr)).
Defined.

(** What each callback does to the number of outstanding starts and
    to the counter. *)
Lemma enter_effect (c : bool) (s : State) :
  reconnectAttempts (initializeWhatsApp_enter c s) = reconnectAttempts s /\
  timeouts (initializeWhatsApp_enter c s) = timeouts s /\
  inFlight (initializeWhatsApp_enter c s) = (if c then S (inFlight s) else inFlight s) /\
  client (initializeWhatsApp_enter c s) = client s /\
  intervals (initializeWhatsApp_enter c s) = intervals s /\
  isConnected (initializeWhatsApp_enter c s) = isConnected s.
Proof. destruct c; simpl; auto 10. Qed.

Lemma onStateChange_other (state : string) (s : State) :
  (state =? CONNECTED)%string = false ->
  (state =? DISCONNECTED)%string = false ->
  reconnectAttempts (onStateChange state s) = reconnectAttempts s /\
  timeouts (onStateChange state s) = timeouts s /\
  inFlight (onStateChange state s) = inFlight s /\
  isConnected (onStateChange state s) = isConnected s /\
  client (onStateChange state s) = client s /\
  intervals (onStateChange state s) = intervals s.
Proof.
  intros H1 H2. unfold onStateChange. rewrite H1, H2.
  destruct (state =? CONFLICT)%string; [simpl; auto 10|].
  destruct (state =? UNPAIRED)%string; simpl; auto 10.
Qed.

Lemma onStateChange_outstanding (state : string) (s : State) :
  (outstanding (onStateChange state s) <= S (outstanding s))%nat /\
  client (onStateChange state s) = client s /\
  intervals (onStateChange state s) = intervals s.
Proof.
  unfold onStateChange, outstanding.
  destruct (state =? CONNECTED)%string; [simpl; auto|].
  destruct (state =? DISCONNECTED)%string.
  - simpl. destruct (reconnectAttempts s <? MAX_RECONNECT_ATTEMPTS); simpl;
      rewrite ?length_app; simpl; repeat split; lia.
  - destruct (state =? CONFLICT)%string; [simpl; auto|].
    destruct (state =? UNPAIRED)%string; simpl; auto.
Qed.

Lemma livenessCheck_frame (probeOk : bool) (s : State) :
  reconnectAttempts (livenessCheck probeOk s) = reconnectAttempts s /\
  timeouts (livenessCheck probeOk s) = timeouts s /\
  inFlight (livenessCheck probeOk s) = inFlight s /\
  client (livenessCheck probeOk s) = client s /\
  intervals (livenessCheck probeOk s) = intervals s.
Proof.
  unfold livenessCheck.
  destruct (client s) eqn:Ec; destruct (isConnected s) eqn:Ei; destruct probeOk;
    simpl; rewrite ?Ec, ?Ei; repeat split.
Qed.


Lemma step_within_budget (e : Event) (s s' : State) :
  resets e = false -> step e s = Some s' -> within_budget s -> within_budget s'.
Proof.
  destruct e as [i c|created| |state|ok|]; intros Hr H Hinv; simpl in Hr, H.
  6:{ destruct (inFlight s) as [|k] eqn:E; [discriminate|].
      inversion H; subst; clear H. left.
      destruct (registration_throws_effect s) as (Hc & Ht & Hi & _).
      unfold within_budget, first_start_pending, budget, outstanding in *.
      rewrite Hc, Ht, Hi, E. cbn [Nat.pred].
      destruct Hinv as [Hb|(_ & _ & Hc' & Ht' & Hi')].
      - destruct (reconnectAttempts s + 1 <? MAX_RECONNECT_ATTEMPTS) eqn:L;
          rewrite ?length_app; cbn [List.length];
          [apply Z.ltb_lt in L|apply Z.ltb_ge in L]; lia.
      - rewrite Hc', Ht'. unfold MAX_RECONNECT_ATTEMPTS. simpl. lia. }
  - destruct (remove_nth i (timeouts s)) as [l|] eqn:E; [|discriminate].
    inversion H; subst; clear H.
    destruct (enter_effect c (clear_timeout l s)) as (Hc & Ht & Hi & _).
    simpl in Hc, Ht, Hi.
    unfold within_budget, first_start_pending, budget, outstanding in *.
    destruct Hinv as [Hb|(_ & _ & _ & Ht' & _)];
      [|rewrite Ht' in E; destruct i; discriminate].
    apply remove_nth_length in E. left.
    rewrite Hc, Ht, Hi. rewrite E in Hb. destruct c; lia.
  - destruct (inFlight s) as [|k] eqn:E; [discriminate|].
    inversion H; subst; clear H. left. unfold initializeWhatsApp_settle.
    destruct created.
    + assert (Ho : outstanding (setInterval 30000 (say [LogSessionCreated]
                     (new_client (set_inFlight (Nat.pred (inFlight s)) s))))
                   = (List.length (timeouts s) + k)%nat)
        by (unfold outstanding; simpl; now rewrite E).
      unfold within_budget, first_start_pending, budget in *.
      rewrite Ho. cbn [reconnectAttempts setInterval].
      change (reconnectAttempts (say [LogSessionCreated]
                (new_client (set_inFlight (Nat.pred (inFlight s)) s))))
        with (reconnectAttempts s).
      unfold outstanding in Hinv.
      destruct Hinv as [Hb|(_ & _ & Hc & Ht & Hi)].
      * lia.
      * rewrite Hc, Ht. unfold MAX_RECONNECT_ATTEMPTS. cbn [List.length]. lia.
    + assert (Hr' : reconnectAttempts (set_inFlight (Nat.pred (inFlight s)) s)
                    = reconnectAttempts s) by reflexivity.
      assert (Ht' : timeouts (set_inFlight (Nat.pred (inFlight s)) s) = timeouts s)
        by reflexivity.
      assert (Hi' : inFlight (set_inFlight (Nat.pred (inFlight s)) s) = k)
        by (simpl; now rewrite E).
      remember (set_inFlight (Nat.pred (inFlight s)) s) as t eqn:Et. clear Et.
      destruct (catch_frame t) as (Hi & _).
      unfold within_budget, first_start_pending, budget, outstanding in *.
      rewrite catch_timeouts, catch_counter, Hi, Hr', Ht', Hi'.
      destruct Hinv as [Hb|(_ & _ & Hc' & Ht'' & Hi'')].
      * destruct (reconnectAttempts s + 1 <? MAX_RECONNECT_ATTEMPTS) eqn:L;
          rewrite ?length_app; cbn [List.length];
          [apply Z.ltb_lt in L|apply Z.ltb_ge in L]; lia.
      * rewrite Hc', Ht''. unfold MAX_RECONNECT_ATTEMPTS. simpl. lia.
  - discriminate.
  - destruct (client s) eqn:Ec; [|discriminate]. inversion H; subst; clear H.
    unfold within_budget, first_start_pending, budget, outstanding in *.
    destruct Hinv as [Hb|(Hc & _)]; [|congruence]. left.
    destruct (state =? DISCONNECTED)%string eqn:Ed.
    + apply String.eqb_eq in Ed; subst state.
      destruct (Z_lt_le_dec (reconnectAttempts s) MAX_RECONNECT_ATTEMPTS) as [L|L].
      * destruct (onStateChange_disconnected_below s L) as (_ & Hc & Ht & Hi).
        rewrite Hc, Ht, Hi, length_app. cbn [List.length]. lia.
      * destruct (onStateChange_disconnected_at_max s L) as (Hc & Ht & Hi).
        rewrite Hc, Ht, Hi. lia.
    + destruct (onStateChange_other state s Hr Ed) as (Hc & Ht & Hi & _).
      rewrite Hc, Ht, Hi. lia.
  - destruct (intervals s) eqn:Ei; [discriminate|]. inversion H; subst; clear H.
    destruct (livenessCheck_frame ok s) as (Hc & Ht & Hi & _).
    unfold within_budget, first_start_pending, budget, outstanding in *.
    destruct Hinv as [Hb|(_ & Hn & _)]; [|congruence]. left.
    rewrite Hc, Ht, Hi. lia.
Qed.


Lemma boot_within_budget (c : bool) : within_budget (boot c).
Proof.
  destruct c; [right|left].
  - unfold first_start_pending; simpl; auto 10.
  - unfold budget, outstanding, MAX_RECONNECT_ATTEMPTS. simpl. lia.
Qed.





(** The plain [DISCONNECTED] event does what [treated_as_disconnect] asks. *)
Lemma disconnected_treated_as_disconnect : treated_as_disconnect DISCONNECTED.
Proof.
  intros s. split.
  - unfold onStateChange; simpl.
    destruct (reconnectAttempts s <? MAX_RECONNECT_ATTEMPTS); reflexivity.
  - intros H. destruct (onStateChange_disconnected_below s H) as (_ & Hc & Ht & _).
    now rewrite Hc, Ht.
Qed.

(** C7, as the specification states it, does not hold: in a connected
    session a [CONFLICT] or [UNPAIRED] report leaves the connection
    flag set. *)
Lemma C7_conflict_unpaired_not_disconnect :
  ~ treated_as_disconnect CONFLICT /\ ~ treated_as_disconnect UNPAIRED.
Proof.
  split; intros H; destruct (H connected_session) as [Hc _];
    vm_compute in Hc; discriminate.
Qed.

(** C7, amended.  On [CONFLICT] and on [UNPAIRED] the handler writes
    two lines to the console (the state and a request to scan the QR
    code again) and changes nothing else: connection flag, counter and
    scheduled retries stay as they were. *)
Theorem C7_conflict_unpaired_only_logged (signal : string) (s : State)
  (Hsig : signal = CONFLICT \/ signal = UNPAIRED) :
  onStateChange signal s =
    say [LogStateChanged signal;
         if (signal =? CONFLICT)%string then LogConflict else LogUnpaired] s /\
  isConnected (onStateChange signal s) = isConnected s /\
  reconnectAttempts (onStateChange signal s) = reconnectAttempts s /\
  timeouts (onStateChange signal s) = timeouts s /\
  inFlight (onStateChange signal s) = inFlight s.
Proof.
  destruct Hsig; subst signal; unfold onStateChange, say; simpl;
    rewrite <- app_assoc; repeat split.
Qed.

Lemma C7_conflict_unpaired_only_logged_witness :
  isConnected (onStateChange CONFLICT connected_session) = isConnected connected_session.
Proof.
  exact (proj1 (proj2 (C7_conflict_unpaired_only_logged CONFLICT connected_session
                         (or_introl eq_refl)))).
Defined.







(** C9, as the specification states it, does not hold: when the
    browser binary is missing, the very first start returns without
    scheduling anything. *)
Lemma C9_missing_chrome_no_retry : ~ every_failed_start_retries.
Proof.
  intros H. specialize (H ChromeMissing init).
  simpl in H. assert (0%nat = 1%nat) by (apply H; [discriminate|reflexivity]).
  discriminate.
Qed.

(** C9, amended.  When [wppconnect.create] rejects, or when a
    registration throws after it resolved, the counter is incremented
    and, if it is then still below the maximum, one retry is scheduled
    after [min (counter * 5000) 30000] milliseconds, and none
    otherwise; the connection flag is not touched and no liveness check
    is started.  When the browser binary is missing, the start logs the
    error and returns: no retry is scheduled and the counter stays as
    it was.  All of this holds whatever the counter is. *)
Theorem C9_failed_start (s : State) :
  (forall o, o = CreateRejected \/ o = RegistrationThrew ->
     reconnectAttempts (initializeWhatsApp o s) = reconnectAttempts s + 1 /\
     timeouts (initializeWhatsApp o s) =
       (if reconnectAttempts s + 1 <? MAX_RECONNECT_ATTEMPTS
        then timeouts s ++ [Z.min ((reconnectAttempts s + 1) * 5000) 30000]
        else timeouts s) /\
     (reconnectAttempts s + 1 < MAX_RECONNECT_ATTEMPTS ->
      timeouts (initializeWhatsApp o s) =
        timeouts s ++ [Z.min ((reconnectAttempts s + 1) * 5000) 30000]) /\
     inFlight (initializeWhatsApp o s) = inFlight s /\
     isConnected (initializeWhatsApp o s) = isConnected s /\
     intervals (initializeWhatsApp o s) = intervals s) /\
  client (initializeWhatsApp CreateRejected s) = client s /\
  client (initializeWhatsApp RegistrationThrew s) <> None /\
  (reconnectAttempts (initializeWhatsApp ChromeMissing s) = reconnectAttempts s /\
   timeouts (initializeWhatsApp ChromeMissing s) = timeouts s /\
   inFlight (initializeWhatsApp ChromeMissing s) = inFlight s /\
   isConnected (initializeWhatsApp ChromeMissing s) = isConnected s /\
   log (initializeWhatsApp ChromeMissing s) = log s ++ [LogInitializing; LogChromeNotFound]).
Proof.
  assert (Hif : reconnectAttempts s + 1 < MAX_RECONNECT_ATTEMPTS ->
                (if reconnectAttempts s + 1 <? MAX_RECONNECT_ATTEMPTS
                 then timeouts s ++ [Z.min ((reconnectAttempts s + 1) * 5000) 30000]
                 else timeouts s)
                = timeouts s ++ [Z.min ((reconnectAttempts s + 1) * 5000) 30000]).
  { intros H. apply Z.ltb_lt in H. now rewrite H. }
  split; [|split; [|split; [|]]].
  - intros o [->| ->]; unfold initializeWhatsApp.
    + unfold initializeWhatsApp_settle.
      rewrite catch_counter, catch_timeouts.
      destruct (catch_frame (set_inFlight
                  (Nat.pred (inFlight (initializeWhatsApp_enter true s)))
                  (initializeWhatsApp_enter true s))) as (Hi & Hc & _ & Hn).
      rewrite Hi, Hc, Hn. simpl. repeat split. exact Hif.
    + destruct (registration_throws_effect (initializeWhatsApp_enter true s))
        as (Hc & Ht & Hi & Hb & _ & Hn).
      rewrite Hc, Ht, Hi, Hb, Hn. simpl. repeat split. exact Hif.
  - unfold initializeWhatsApp, initializeWhatsApp_settle.
    destruct (catch_frame (set_inFlight
                (Nat.pred (inFlight (initializeWhatsApp_enter true s)))
                (initializeWhatsApp_enter true s))) as (_ & _ & Hk & _).
    rewrite Hk. reflexivity.
  - unfold initializeWhatsApp.
    destruct (registration_throws_effect (initializeWhatsApp_enter true s))
      as (_ & _ & _ & _ & Hk & _).
    rewrite Hk. discriminate.
  - simpl. rewrite <- app_assoc. repeat split.
Qed.

Lemma C9_failed_start_witness :
  timeouts (initializeWhatsApp CreateRejected init) = [5000] /\
  timeouts (initializeWhatsApp ChromeMissing init) = [].
Proof.
  pose proof (C9_failed_start init) as (Hcatch & _ & _ & (_ & Ht' & _)).
  destruct (Hcatch CreateRejected (or_introl eq_refl)) as (_ & Ht & _).
  split; [exact Ht|exact Ht'].
Defined.

End SupervisorFacts.

(* ================================================================== *)
(** ** Properties of the JavaScript layer *)
(* ================================================================== *)

Section JsFacts.
Import Js.

Lemma try_catch_emit {E : Type} (m : Eff E unit) (f : Error -> E) :
  snd (try_catch m (fun e => emit (f e))) = Normal tt.
Proof. destruct m as [w [[]|e]]; reflexivity. Qed.

Lemma digit_cases (n : Z) :
  exists k, (k < 10)%nat /\ digit n = ascii_of_nat (48 + k).
Proof.
  exists (Z.to_nat (n mod 10)). split; [|reflexivity].
  pose proof (Z.mod_pos_bound n 10 ltac:(lia)). lia.
Qed.

Lemma digit_is_digit (n : Z) : is_digit (digit n) = true.
Proof.
  destruct (digit_cases n) as (k & Hk & ->).
  do 10 (destruct k as [|k]; [reflexivity|]). lia.
Qed.

Lemma digit_not_T (n : Z) : "T"%char <> digit n.
Proof.
  destruct (digit_cases n) as (k & Hk & ->).
  do 10 (destruct k as [|k]; [discriminate|]). lia.
Qed.

Lemma replace_first_skip (a c : ascii) (p rep s : string) :
  a <> c ->
  replace_first (String a p) rep (String c s) =
    String c (replace_first (String a p) rep s).
Proof.
  intros H. cbn [replace_first String.prefix].
  destruct (ascii_dec a c); [contradiction|reflexivity].
Qed.

Lemma replace_first_hit (a : ascii) (rep s : string) :
  replace_first (String a EmptyString) rep (String a s) = (rep ++ s)%string.
Proof.
  cbn [replace_first String.prefix].
  destruct (ascii_dec a a); [|contradiction].
  destruct s; reflexivity.
Qed.

(** Removing the suffix [@c.us] from a digits-only local part. *)
Lemma strip_suffix_of_digits (d : string) :
  digits_only d = true ->
  replace_first "@c.us" "" (d ++ "@c.us") = d.
Proof.
  induction d as [|c d IH]; intros H.
  - reflexivity.
  - simpl in H. apply andb_prop in H as [Hc Hd].
    change (String c d ++ "@c.us")%string with (String c (d ++ "@c.us")).
    rewrite replace_first_skip.
    + now rewrite IH.
    + intros <-. discriminate.
Qed.

(** *** Dates *)

Lemma DayFromYear_step (y : Z) :
  DayFromYear (y + 1) = DayFromYear y + DaysInYear y.
Proof.
  unfold DayFromYear, DaysInYear.
  assert (H4 : (y mod 100) mod 4 = y mod 4)
    by (apply Z.mod_mod_divide; exists 25; lia).
  assert (H100 : (y mod 400) mod 100 = y mod 100)
    by (apply Z.mod_mod_divide; exists 4; lia).
  destruct (y mod 4 =? 0) eqn:E4; destruct (y mod 100 =? 0) eqn:E100;
  destruct (y mod 400 =? 0) eqn:E400; cbn [negb];
  rewrite ?Z.eqb_eq, ?Z.eqb_neq in *;
  Z.div_mod_to_equations; lia.
Qed.

Lemma DayFromYear_monotone (y y' : Z) :
  y <= y' -> DayFromYear y <= DayFromYear y'.
Proof. intros H. unfold DayFromYear. Z.div_mod_to_equations. lia. Qed.

(** [YearFromTime] is the year the ECMAScript specification defines:
    the one whose first day is the last not after the day of [t]. *)
Lemma YearFromTime_spec (t : Z) :
  DayFromYear (YearFromTime t) <= Day t < DayFromYear (YearFromTime t + 1).
Proof.
  unfold YearFromTime. set (d := Day t). clearbody d.
  set (y := 1970 + 400 * d / 146097).
  assert (Hlo : DayFromYear (y - 1) <= d).
  { unfold DayFromYear, y. Z.div_mod_to_equations. lia. }
  assert (Hhi : d < DayFromYear (y + 1 + 1)).
  { unfold DayFromYear, y. Z.div_mod_to_equations. lia. }
  destruct (DayFromYear (y + 1) <=? d) eqn:E1.
  - apply Z.leb_le in E1. lia.
  - apply Z.leb_gt in E1.
    destruct (DayFromYear y <=? d) eqn:E2.
    + apply Z.leb_le in E2. lia.
    + apply Z.leb_gt in E2. replace (y - 1 + 1) with y by lia. lia.
Qed.

Lemma YearFromTime_four_digits (t : Z) :
  -62167219200000 <= t < 253402300800000 -> 0 <= YearFromTime t <= 9999.
Proof.
  intros Ht. pose proof (YearFromTime_spec t) as [Hlo Hhi].
  assert (Hd : -719528 <= Day t <= 2932896).
  { unfold Day, msPerDay. Z.div_mod_to_equations. lia. }
  split.
  - destruct (Z_lt_le_dec (YearFromTime t) 0) as [L|L]; [|assumption].
    pose proof (DayFromYear_monotone (YearFromTime t + 1) 0 ltac:(lia)) as M.
    change (DayFromYear 0) with (-719528) in M. lia.
  - destruct (Z_lt_le_dec 9999 (YearFromTime t)) as [L|L]; [|assumption].
    pose proof (DayFromYear_monotone 10000 (YearFromTime t) ltac:(lia)) as M.
    change (DayFromYear 10000) with 2932897 in M. lia.
Qed.

Lemma DayWithinYear_range (t : Z) :
  0 <= DayWithinYear t < DaysInYear (YearFromTime t).
Proof.
  unfold DayWithinYear. pose proof (YearFromTime_spec t) as H.
  rewrite DayFromYear_step in H. lia.
Qed.

(** Month and day of the month are in range, so that two digits hold them. *)
Lemma DateFromTime_range (t : Z) :
  0 <= MonthFromTime t <= 11 /\ 1 <= DateFromTime t <= 31.
Proof.
  pose proof (DayWithinYear_range t) as H.
  unfold DateFromTime, MonthFromTime, InLeapYear.
  assert (Hy : DaysInYear (YearFromTime t) = 365 \/ DaysInYear (YearFromTime t) = 366).
  { unfold DaysInYear.
    repeat match goal with |- context [if ?b then _ else _] => destruct b end; auto. }
  set (d := DayWithinYear t) in *. clearbody d.
  destruct Hy as [Hy|Hy]; rewrite Hy in *; cbn [Z.eqb Pos.eqb];
  repeat match goal with
         | |- context [if ?a <? ?b then _ else _] =>
             let E := fresh "E" in destruct (a <? b) eqn:E;
             [apply Z.ltb_lt in E|apply Z.ltb_ge in E]
         end; lia.
Qed.

(** For a year of four digits, the first nineteen characters of the ISO
    string, with the [T] replaced by a blank, are [YYYY-MM-DD HH:MM:SS]. *)
Lemma timestamp_format (t : Z) :
  -62167219200000 <= t < 253402300800000 ->
  exists iso, toISOString t = Normal iso /\
    is_timestamp_format (replace_first "T" " " (substring 0 19 iso)) = true.
Proof.
  intros Ht. unfold toISOString.
  assert (Hc : (Z.abs t <=? 8640000000000000) = true) by (apply Z.leb_le; lia).
  rewrite Hc. eexists. split; [reflexivity|].
  pose proof (YearFromTime_four_digits t Ht) as Hy.
  unfold year_string.
  assert (Hb : ((0 <=? YearFromTime t) && (YearFromTime t <=? 9999)) = true)
    by (apply andb_true_intro; split; apply Z.leb_le; lia).
  rewrite Hb.
  cbn [pad String.append substring].
  repeat (rewrite replace_first_skip by (apply digit_not_T || discriminate)).
  rewrite replace_first_hit.
  cbn [String.append is_timestamp_format].
  rewrite !digit_is_digit. reflexivity.
Qed.

Example toISOString_epoch :
  toISOString 0 = Normal "1970-01-01T00:00:00.000Z"%string.
Proof. vm_compute. reflexivity. Qed.

Example toISOString_leap_day :
  toISOString 1709251199000 = Normal "2024-02-29T23:59:59.000Z"%string /\
  toISOString 1709251200000 = Normal "2024-03-01T00:00:00.000Z"%string /\
  toISOString 4107542400000 = Normal "2100-03-01T00:00:00.000Z"%string.
Proof. vm_compute. repeat split. Qed.

Example toISOString_before_epoch :
  toISOString (-1) = Normal "1969-12-31T23:59:59.999Z"%string.
Proof. vm_compute. reflexivity. Qed.

Example toISOString_invalid_date :
  toISOString 8640000000000001 = Throw (RangeError "Invalid time value").
Proof. vm_compute. reflexivity. Qed.

(** The gateway's normalisation of an address. *)
Example strip_non_digits_example :
  strip_non_digits "+91 99999 99999" = "919999999999"%string.
Proof. reflexivity. Qed.

(** Beyond the year 9999 the text is not of that shape. *)
Example timestamp_year_10000 :
  toISOString 253402300800000 = Normal "+010000-01-01T00:00:00.000Z"%string.
Proof. vm_compute. reflexivity. Qed.

End JsFacts.

(* ================================================================== *)
(** ** Properties of the inbound relay *)
(* ================================================================== *)

Section RelayFacts.
Import Js Relay.

Lemma posted_app (w w' : list Effect) :
  posted (w ++ w') = posted w ++ posted w'.
Proof.
  induction w as [|e w IH]; [reflexivity|].
  destruct e; simpl; now rewrite ?IH.
Qed.

(** [sendToCRM] posts once, writes one line and returns a boolean;
    the boolean is [true] exactly for the status 200. *)
Lemma sendToCRM_shape (cfg : Config) (net : Payload -> HttpOutcome) (data : Payload) :
  exists line,
    sendToCRM cfg net data =
      ([Post (CRM_WEBHOOK cfg) data 10000; line],
       Normal match net data with
              | Responded status => status =? 200
              | _ => false
              end) /\
    is_post line = false /\
    is_error_line line =
      negb match net data with
           | Responded status => status =? 200
           | _ => false
           end.
Proof.
  unfold sendToCRM, axios_post, bind, try_catch, emit, ret, throw; simpl.
  destruct (net data) as [status| |reason]; simpl.
  - destruct (status <? 500) eqn:E5; simpl.
    + destruct (status =? 200) eqn:E2; simpl; eexists; repeat split.
    + assert (E2 : (status =? 200) = false)
        by (apply Z.eqb_neq; apply Z.ltb_ge in E5; lia).
      rewrite E2. eexists; repeat split.
  - eexists; repeat split.
  - eexists; repeat split.
Qed.

(** What the handler posts. *)
Lemma onMessage_posted (cfg : Config) (net : Payload -> HttpOutcome) (now : Z)
    (m : Message) :
  posted (fst (onMessage cfg net now m)) =
    match from m with
    | Some f =>
        if isGroupMsg m || (f =? "status@broadcast")%string then []
        else match toISOString (instant m now) with
             | Normal iso =>
                 [mkPayload (SYNC_KEY cfg) (replace_first "@c.us" "" f)
                    (messageText m) "customer"
                    (replace_first "T" " " (substring 0 19 iso))]
             | Throw _ => []
             end
    | None => []
    end.
Proof.
  unfold onMessage, timestampText.
  destruct (from m) as [f|]; [|destruct (isGroupMsg m); reflexivity].
  destruct (isGroupMsg m || (f =? "status@broadcast")%string); [reflexivity|].
  destruct (toISOString (instant m now)) as [iso|e]; [|reflexivity].
  simpl.
  destruct (sendToCRM_shape cfg net
              (mkPayload (SYNC_KEY cfg) (replace_first "@c.us" "" f) (messageText m)
                 "customer" (replace_first "T" " " (substring 0 19 iso))))
    as (line & -> & Hp & _).
  simpl.
  destruct (match net _ with Responded status => status =? 200 | _ => false end);
    destruct line; simpl in *; try discriminate; reflexivity.
Qed.

(** The handler's [try]/[catch] lets no exception out. *)
Lemma onMessage_never_throws (cfg : Config) (net : Payload -> HttpOutcome) (now : Z)
    (m : Message) :
  snd (onMessage cfg net now m) = Normal tt.
Proof. unfold onMessage. apply try_catch_emit. Qed.

(** A forwarded message whose delivery failed is reported by the handler too. *)
Lemma onMessage_reports_failure (cfg : Config) (net : Payload -> HttpOutcome) (now : Z)
    (m : Message) (p : Payload) :
  In p (posted (fst (onMessage cfg net now m))) ->
  delivery_failed (net p) ->
  In (ErrForwardFailed (phone p)) (fst (onMessage cfg net now m)).
Proof.
  intros Hin Hfail. rewrite onMessage_posted in Hin.
  unfold onMessage, timestampText.
  destruct (from m) as [f|]; [|contradiction].
  destruct (isGroupMsg m || (f =? "status@broadcast")%string); [contradiction|].
  destruct (toISOString (instant m now)) as [iso|e]; [|contradiction].
  destruct Hin as [<-|[]]. simpl.
  destruct (sendToCRM_shape cfg net
              (mkPayload (SYNC_KEY cfg) (replace_first "@c.us" "" f) (messageText m)
                 "customer" (replace_first "T" " " (substring 0 19 iso))))
    as (line & -> & _ & _).
  simpl.
  destruct (net _) as [status| |reason]; simpl in *; auto 10.
  assert (E : (status =? 200) = false) by (apply Z.eqb_neq; lia).
  rewrite E. simpl. auto 10.
Qed.

(** C5, as the specification states it, does not hold: a direct
    message from a sender whose address ends in [@lid] is forwarded
    with the whole address. *)
Lemma C5_lid_sender_not_digits : ~ forwarded_address_digits_only.
Proof.
  intros H.
  specialize (H (mkConfig "key" "http://crm") (fun _ => Responded 200) 0 lid_message
                (mkPayload "key" "919999999999@lid" "Hi" "customer" "2023-11-14 22:13:20")).
  assert (E : digits_only "919999999999@lid" = true).
  { apply H. rewrite onMessage_posted. vm_compute. left. reflexivity. }
  vm_compute in E. discriminate.
Qed.

(** C5, amended.  Every payload the handler forwards carries the
    configured key, the sender ["customer"] and the extracted text; its
    address is the sender address with the first [@c.us] removed, which
    is digits-only whenever the sender address is a run of digits
    followed by [@c.us]; its timestamp has the form
    [YYYY-MM-DD HH:MM:SS] whenever the instant lies in the years 0 to
    9999.  The example of the specification gives the address
    [919999999999], the body [Hi] and the timestamp
    [2023-11-14 22:13:20]. *)
Theorem C5_relay_payload (cfg : Config) (net : Payload -> HttpOutcome) (now : Z)
    (m : Message) (p : Payload)
    (Hp : In p (posted (fst (onMessage cfg net now m)))) :
  sync_key p = SYNC_KEY cfg /\
  sender p = "customer"%string /\
  message p = messageText m /\
  (exists f, from m = Some f /\ phone p = replace_first "@c.us" "" f /\
     forall d, digits_only d = true -> f = (d ++ "@c.us")%string ->
               phone p = d /\ digits_only (phone p) = true) /\
  (four_digit_year (instant m now) -> is_timestamp_format (timestamp_text p) = true) /\
  posted (fst (onMessage cfg net now example_message)) =
    [mkPayload (SYNC_KEY cfg) "919999999999" "Hi" "customer" "2023-11-14 22:13:20"].
Proof.
  rewrite onMessage_posted in Hp.
  destruct (from m) as [f|] eqn:Ef; [|contradiction].
  destruct (isGroupMsg m || (f =? "status@broadcast")%string); [contradiction|].
  destruct (toISOString (instant m now)) as [iso|e] eqn:Eiso; [|contradiction].
  destruct Hp as [<-|[]]. simpl.
  do 3 (split; [reflexivity|]). split; [|split].
  - exists f. do 2 (split; [reflexivity|]). intros d Hd ->.
    rewrite strip_suffix_of_digits by assumption. now split.
  - intros Hy. destruct (timestamp_format _ Hy) as (iso' & E' & Hfmt).
    congruence.
  - rewrite onMessage_posted. vm_compute. reflexivity.
Qed.

Lemma C5_relay_payload_witness :
  In (mkPayload "key" "919999999999" "Hi" "customer" "2023-11-14 22:13:20")
     (posted (fst (onMessage (config_of_env (Some "key"%string) None)
                     (fun _ => Responded 200) 0 example_message))) /\
  sender (mkPayload "key" "919999999999" "Hi" "customer" "2023-11-14 22:13:20")
    = "customer"%string.
Proof.
  assert (Hp : In (mkPayload "key" "919999999999" "Hi" "customer" "2023-11-14 22:13:20")
                  (posted (fst (onMessage (config_of_env (Some "key"%string) None)
                                  (fun _ => Responded 200) 0 example_message))))
    by (vm_compute; left; reflexivity).
  split; [exact Hp|].
  exact (proj1 (proj2 (C5_relay_payload _ _ 0 example_message _ Hp))).
Defined.

(** C6.  When the webhook answers with a status outside 200..299, or
    does not answer, or the request cannot be sent, [sendToCRM] has
    posted exactly once, writes one error line and returns [false]
    instead of throwing; the inbound handler reports the failure, posts
    at most once whatever happens, and never throws. *)
Theorem C6_delivery_failure (cfg : Config) (net : Payload -> HttpOutcome)
    (data : Payload) (Hfail : delivery_failed (net data)) :
  (exists line,
     sendToCRM cfg net data =
       ([Post (CRM_WEBHOOK cfg) data 10000; line], Normal false) /\
     is_error_line line = true) /\
  (forall now m,
     In data (posted (fst (onMessage cfg net now m))) ->
     In (ErrForwardFailed (phone data)) (fst (onMessage cfg net now m))) /\
  (forall now m,
     snd (onMessage cfg net now m) = Normal tt /\
     (List.length (posted (fst (onMessage cfg net now m))) <= 1)%nat).
Proof.
  assert (E : match net data with Responded status => status =? 200 | _ => false end
              = false).
  { destruct (net data) as [status| |reason]; simpl in *; auto.
    apply Z.eqb_neq. lia. }
  repeat split.
  - destruct (sendToCRM_shape cfg net data) as (line & Hs & _ & Hl).
    exists line. rewrite Hs, Hl, E. auto.
  - intros now m Hin. now apply onMessage_reports_failure.
  - apply onMessage_never_throws.
  - rewrite onMessage_posted.
    destruct (from m) as [f|]; [|simpl; lia].
    destruct (isGroupMsg m || (f =? "status@broadcast")%string); [simpl; lia|].
    destruct (toISOString (instant m now)); simpl; lia.
Qed.

Lemma C6_delivery_failure_witness :
  delivery_failed (Responded 500) /\
  exists line,
    sendToCRM (config_of_env (Some "key"%string) None) (fun _ => Responded 500)
              (mkPayload "key" "919999999999" "Hi" "customer" "2023-11-14 22:13:20") =
      ([Post (CRM_WEBHOOK (config_of_env (Some "key"%string) None))
             (mkPayload "key" "919999999999" "Hi" "customer" "2023-11-14 22:13:20")
             10000; line],
       Normal false) /\
    is_error_line line = true.
Proof.
  assert (Hfail : delivery_failed (Responded 500)) by (simpl; lia).
  split; [exact Hfail|].
  exact (proj1 (C6_delivery_failure (config_of_env (Some "key"%string) None)
                  (fun _ => Responded 500)
                  (mkPayload "key" "919999999999" "Hi" "customer" "2023-11-14 22:13:20")
                  Hfail)).
Defined.

End RelayFacts.

(* ================================================================== *)
(** ** Properties of the outbound gateway *)
(* ================================================================== *)

Section GatewayFacts.
Import Js Gateway.

(** The handler's outer [try]/[catch] turns every exception into an
    answer: the handler always answers. *)
Lemma send_message_answers (K : string) (s : Supervisor.State)
    (sendText : string -> Value -> Completion unit) (req : Request) :
  exists resp, snd (send_message K s sendText req) = Normal resp.
Proof.
  unfold send_message.
  match goal with |- context [try_catch ?m ?h] => destruct m as [w [r|e]] end;
    simpl; eauto.
Qed.

(** With an empty configured key, no key passes the first check. *)
Lemma empty_key_never_authorized (req : Request) : authorized "" req = false.
Proof.
  unfold authorized. destruct (key req) as [| |b|n|k|]; simpl;
    rewrite ?andb_false_r; try reflexivity.
  destruct (k =? "")%string; reflexivity.
Qed.

Lemma unauthorized_answer (K : string) (s : Supervisor.State)
    (sendText : string -> Value -> Completion unit) (req : Request) :
  authorized K req = false ->
  send_message K s sendText req =
    ([WarnInvalidKey],
     Normal (mkResponse 401 (mkJson false (Some "Invalid sync key"%string) None None None))).
Proof.
  unfold authorized, send_message. intros H.
  assert (E : negb (truthy (key req)) || negb (strict_eq_string (key req) K) = true).
  { rewrite <- negb_andb, H. reflexivity. }
  rewrite E. reflexivity.
Qed.

(** C4, as the specification states it, does not hold: with the right
    key and a three-digit address, while no session is connected, the
    handler answers 503 where the specified order gives 400. *)
Lemma C4_short_phone_while_offline :
  ~ (forall K s sendText req,
       answered (send_message K s sendText req) =
         Some (status_as_specified K s sendText req)).
Proof.
  intros H.
  specialize (H "secret"%string Supervisor.init always_sent short_phone_request).
  vm_compute in H. discriminate.
Qed.

(** C4, amended.  The handler answers every request, with the status
    its own order of checks gives: 401 when the key is missing or
    differs from the configured one; otherwise 400 when the address or
    the body is missing; otherwise 503 when no session is connected;
    otherwise 500 when the address is not a string; otherwise 400 when
    the digits-only address has fewer than ten digits; otherwise the
    adapter is called, once, with the digits-only address followed by
    [@c.us], and the answer is 200 with the digits-only address, or
    500 when the adapter throws.  In all other cases the adapter is
    not called. *)
Theorem C4_order_of_checks (K : string) (s : Supervisor.State)
    (sendText : string -> Value -> Completion unit) (req : Request) :
  answered (send_message K s sendText req) =
    Some (status_as_implemented K s sendText req) /\
  sends (fst (send_message K s sendText req)) =
    (if authorized K req && truthy (phone req) && truthy (message req)
        && connected_now s && is_string (phone req) && negb (too_short (phone req))
     then [((digits_of (phone req) ++ "@c.us")%string, message req)]
     else []) /\
  (forall resp,
     snd (send_message K s sendText req) = Normal resp ->
     status resp = 200 ->
     sent_to (json resp) = Some (digits_of (phone req))).
Proof.
  destruct (authorized K req) eqn:Ea.
  2:{ rewrite (unauthorized_answer K s sendText req Ea).
      unfold status_as_implemented, answered. rewrite Ea. simpl.
      repeat split. intros resp H. inversion H; subst. discriminate. }
  unfold status_as_implemented, answered, send_message, connected_now, too_short.
  rewrite Ea. unfold authorized in Ea. apply andb_prop in Ea as [Ek Es].
  rewrite Ek, Es. cbn [negb orb andb].
  destruct (truthy (phone req)) eqn:Ep; cbn [negb orb andb];
    [|repeat split; intros resp H; inversion H; subst; discriminate].
  destruct (truthy (message req)) eqn:Em; cbn [negb orb andb];
    [|repeat split; intros resp H; inversion H; subst; discriminate].
  destruct (Supervisor.client s) as [c|]; cbn [negb orb andb];
    [|repeat split; intros resp H; inversion H; subst; discriminate].
  destruct (Supervisor.isConnected s); cbn [negb orb andb];
    [|repeat split; intros resp H; inversion H; subst; discriminate].
  destruct (phone req) as [| |b|n|ph|] eqn:Eph; cbn [is_string negb digits_of];
    try (repeat split; intros resp H; inversion H; subst; discriminate).
  simpl.
  destruct (Z.of_nat (String.length (strip_non_digits ph)) <? 10); simpl;
    [repeat split; intros resp H; inversion H; subst; discriminate|].
  destruct (sendText (strip_non_digits ph ++ "@c.us")%string (message req)) as [[]|e];
    simpl; repeat split; intros resp H; inversion H; subst; try discriminate; reflexivity.
Qed.

(** C10.  When the configured key is the empty string, as it is when
    [SYNC_KEY] is not set in the environment, the handler answers
    every request with 401 and does not call the adapter, whatever key
    the request carries. *)
Theorem C10_empty_key_rejects_all (cfg : Relay.Config) (s : Supervisor.State)
    (sendText : string -> Value -> Completion unit) (req : Request)
    (Hempty : Relay.SYNC_KEY cfg = ""%string) :
  send_message (Relay.SYNC_KEY cfg) s sendText req =
    ([WarnInvalidKey],
     Normal (mkResponse 401 (mkJson false (Some "Invalid sync key"%string) None None None))) /\
  answered (send_message (Relay.SYNC_KEY cfg) s sendText req) = Some 401 /\
  sends (fst (send_message (Relay.SYNC_KEY cfg) s sendText req)) = [].
Proof.
  rewrite Hempty.
  rewrite (unauthorized_answer "" s sendText req (empty_key_never_authorized req)).
  repeat split.
Qed.

Lemma C10_empty_key_rejects_all_witness :
  Relay.SYNC_KEY (Relay.config_of_env None None) = ""%string /\
  answered (send_message (Relay.SYNC_KEY (Relay.config_of_env None None))
              Supervisor.connected_session always_sent
              (mkRequest (Str "") (Str "919999999999") (Str "hello"))) = Some 401.
Proof.
  assert (H : Relay.SYNC_KEY (Relay.config_of_env None None) = ""%string) by reflexivity.
  split; [exact H|].
  exact (proj1 (proj2 (C10_empty_key_rejects_all (Relay.config_of_env None None)
                         Supervisor.connected_session always_sent
                         (mkRequest (Str "") (Str "919999999999") (Str "hello")) H))).
Defined.

End GatewayFacts.

(* ================================================================== *)
(** ** Further properties of the session supervisor *)
(* ================================================================== *)

Section SupervisorRuns.
Import Supervisor Runs.

(** What one callback that is not a reset does to the counter and to
    the number of outstanding starts: nothing is added, or a
    disconnection below the maximum adds one to both, or a failed start
    adds one to the counter and gives up its place or takes it again. *)
Lemma step_arith (e : Event) (s s' : State) :
  resets e = false -> step e s = Some s' ->
  (reconnectAttempts s' = reconnectAttempts s /\ (outstanding s' <= outstanding s)%nat) \/
  (reconnectAttempts s < MAX_RECONNECT_ATTEMPTS /\
   reconnectAttempts s' = reconnectAttempts s + 1 /\
   outstanding s' = S (outstanding s)) \/
  ((1 <= outstanding s)%nat /\
   reconnectAttempts s' = reconnectAttempts s + 1 /\
   ((reconnectAttempts s + 1 < MAX_RECONNECT_ATTEMPTS /\ outstanding s' = outstanding s) \/
    (MAX_RECONNECT_ATTEMPTS <= reconnectAttempts s + 1 /\
     S (outstanding s') = outstanding s))).
Proof.
  destruct e as [i c|created| |state|ok|]; intros Hr H; simpl in Hr, H.
  6:{ destruct (inFlight s) as [|k] eqn:E; [discriminate|].
      inversion H; subst; clear H. right. right.
      destruct (registration_throws_effect s) as (Hc & Ht & Hi & _).
      unfold outstanding. rewrite Hc, Ht, Hi, E. cbn [Nat.pred].
      destruct (reconnectAttempts s + 1 <? MAX_RECONNECT_ATTEMPTS) eqn:L;
        rewrite ?length_app; cbn [List.length];
        [apply Z.ltb_lt in L|apply Z.ltb_ge in L]; lia. }
  - destruct (remove_nth i (timeouts s)) as [l|] eqn:E; [|discriminate].
    inversion H; subst; clear H. left.
    destruct (enter_effect c (clear_timeout l s)) as (Hc & Ht & Hi & _).
    simpl in Hc, Ht, Hi. apply remove_nth_length in E.
    unfold outstanding. rewrite Hc, Ht, Hi, E. destruct c; lia.
  - destruct (inFlight s) as [|k] eqn:E; [discriminate|].
    inversion H; subst; clear H. unfold initializeWhatsApp_settle.
    destruct created.
    + left. unfold outstanding; simpl. rewrite E. simpl. lia.
    + right. right.
      assert (Hr' : reconnectAttempts (set_inFlight (Nat.pred (inFlight s)) s)
                    = reconnectAttempts s) by reflexivity.
      assert (Ht' : timeouts (set_inFlight (Nat.pred (inFlight s)) s) = timeouts s)
        by reflexivity.
      assert (Hi' : inFlight (set_inFlight (Nat.pred (inFlight s)) s) = k)
        by (simpl; now rewrite E).
      remember (set_inFlight (Nat.pred (inFlight s)) s) as t eqn:Et. clear Et.
      destruct (catch_frame t) as (Hi & _).
      unfold outstanding.
      rewrite catch_timeouts, catch_counter, Hi, Hr', Ht', Hi', E.
      destruct (reconnectAttempts s + 1 <? MAX_RECONNECT_ATTEMPTS) eqn:L;
        rewrite ?length_app; cbn [List.length];
        [apply Z.ltb_lt in L|apply Z.ltb_ge in L]; lia.
  - discriminate.
  - destruct (client s) eqn:Ec; [|discriminate]. inversion H; subst; clear H.
    destruct (state =? DISCONNECTED)%string eqn:Ed.
    + apply String.eqb_eq in Ed; subst state.
      destruct (Z_lt_le_dec (reconnectAttempts s) MAX_RECONNECT_ATTEMPTS) as [L|L].
      * right. left.
        destruct (onStateChange_disconnected_below s L) as (_ & Hc & Ht & Hi).
        unfold outstanding. rewrite Hc, Ht, Hi, length_app. cbn [List.length]. lia.
      * left. destruct (onStateChange_disconnected_at_max s L) as (Hc & Ht & Hi).
        unfold outstanding. rewrite Hc, Ht, Hi. lia.
    + left. destruct (onStateChange_other state s Hr Ed) as (Hc & Ht & Hi & _).
      unfold outstanding. rewrite Hc, Ht, Hi. lia.
  - destruct (intervals s) eqn:Ei; [discriminate|]. inversion H; subst; clear H.
    left. destruct (livenessCheck_frame ok s) as (Hc & Ht & Hi & _).
    unfold outstanding. rewrite Hc, Ht, Hi. lia.
Qed.

Lemma step_within_double (e : Event) (s s' : State) :
  resets e = false -> step e s = Some s' -> within_double s -> within_double s'.
Proof.
  intros Hr H (Hb & H0 & H2).
  pose proof (step_within_budget e s s' Hr H Hb) as Hb'.
  split; [assumption|].
  assert (Ho : Z.of_nat (outstanding s) <= reconnectAttempts s \/
               (reconnectAttempts s = 0 /\ outstanding s = 1%nat)).
  { destruct Hb as [Hb|(_ & _ & Hc & Ht & Hi)].
    - left. unfold budget in Hb. lia.
    - right. unfold outstanding. rewrite Ht, Hi. auto. }
  destruct (step_arith e s s' Hr H)
    as [(Hc & Ho')|[(L & Hc & Ho')|(L & Hc & [(L' & Ho')|(L' & Ho')])]];
    rewrite Hc; unfold MAX_RECONNECT_ATTEMPTS in *; lia.
Qed.

Lemma run_within_double (tr : list Event) :
  forall s s', reset_free tr = true -> run tr s = Some s' ->
               within_double s -> within_double s'.
Proof.
  induction tr as [|e tr IH]; simpl; intros s s' Hr H Hinv.
  - now inversion H; subst.
  - apply andb_prop in Hr as [He Hr].
    destruct (step e s) as [s1|] eqn:E; [|discriminate].
    apply (IH s1 s' Hr H).
    apply (step_within_double e s s1); auto.
    now destruct (resets e).
Qed.

Lemma boot_within_double (c : bool) : within_double (boot c).
Proof.
  split; [apply boot_within_budget|].
  destruct c; unfold outstanding, MAX_RECONNECT_ATTEMPTS; simpl; lia.
Qed.

(** X1.  Without a reset of the counter (no [CONNECTED], no QR code),
    the counter stays between 0 and 20, twice the maximum: the ten
    retries that disconnections can schedule may each fail once more.
    The run [ten_flaps_ten_failures] reaches 20. *)
Theorem counter_at_most_twice_maximum (c : bool) (tr : list Event) (s : State)
  (Hrun : run tr (boot c) = Some s)
  (Hfree : reset_free tr = true) :
  0 <= reconnectAttempts s <= 2 * MAX_RECONNECT_ATTEMPTS /\
  reset_free ten_flaps_ten_failures = true /\
  exists s20, run ten_flaps_ten_failures (boot true) = Some s20 /\
              reconnectAttempts s20 = 2 * MAX_RECONNECT_ATTEMPTS.
Proof.
  split; [|split].
  - destruct (run_within_double tr _ _ Hfree Hrun (boot_within_double c))
      as (_ & H0 & H2). lia.
  - reflexivity.
  - eexists. split; [vm_compute; reflexivity|reflexivity].
Qed.

Lemma counter_at_most_twice_maximum_witness :
  exists s,
    run flapping_then_failing (boot true) = Some s /\
    0 <= reconnectAttempts s <= 2 * MAX_RECONNECT_ATTEMPTS.
Proof.
  eexists. split; [vm_compute; reflexivity|].
  refine (proj1 (counter_at_most_twice_maximum true flapping_then_failing _ _ _));
    [vm_compute; reflexivity|reflexivity].
Defined.

(** The [CONNECTED] branch of the state-change handler. *)
Lemma onStateChange_connected (s : State) :
  isConnected (onStateChange CONNECTED s) = true /\
  reconnectAttempts (onStateChange CONNECTED s) = 0 /\
  timeouts (onStateChange CONNECTED s) = timeouts s /\
  inFlight (onStateChange CONNECTED s) = inFlight s /\
  client (onStateChange CONNECTED s) = client s /\
  intervals (onStateChange CONNECTED s) = intervals s.
Proof. unfold onStateChange; simpl. repeat split. Qed.

(** X2.  A QR code or a [CONNECTED] report sets the counter to zero and
    cancels nothing: the retries that were scheduled stay scheduled and
    the starts in flight stay in flight. *)
Theorem reset_cancels_nothing (e : Event) (s s' : State)
  (Hreset : resets e = true) (Hstep : step e s = Some s') :
  reconnectAttempts s' = 0 /\
  timeouts s' = timeouts s /\
  inFlight s' = inFlight s /\
  intervals s' = intervals s.
Proof.
  destruct e as [i c|created| |state|ok|]; simpl in Hreset, Hstep; try discriminate.
  - destruct (client s); [|discriminate]. inversion Hstep; subst.
    simpl. repeat split.
  - destruct (client s); [|discriminate]. inversion Hstep; subst.
    apply String.eqb_eq in Hreset; subst state.
    destruct (onStateChange_connected s) as (_ & Hc & Ht & Hi & _ & Hn). auto.
Qed.

Lemma reset_cancels_nothing_witness :
  exists s',
    step QRCode (onStateChange DISCONNECTED fresh_session) = Some s' /\
    reconnectAttempts s' = 0 /\ timeouts s' = [5000].
Proof.
  eexists. split; [reflexivity|].
  pose proof (reset_cancels_nothing QRCode (onStateChange DISCONNECTED fresh_session) _
                eq_refl eq_refl) as (Hc & Ht & _).
  split; [exact Hc|exact Ht].
Defined.

(** X3.  Reaching the maximum is not final: in any state with a
    session, whatever the counter, a [CONNECTED] report followed by a
    [DISCONNECTED] one schedules a retry after five seconds and leaves
    the counter at one. *)
Theorem reconnect_resumes_after_reset (s : State) (Hclient : client s <> None) :
  exists s',
    run [StateChange CONNECTED; StateChange DISCONNECTED] s = Some s' /\
    isConnected s' = false /\
    reconnectAttempts s' = 1 /\
    timeouts s' = timeouts s ++ [5000].
Proof.
  destruct (client s) as [k|] eqn:Ec; [|contradiction].
  simpl. rewrite Ec.
  destruct (onStateChange_connected s) as (_ & Hc & Ht & _ & Hk & _).
  rewrite Hk, Ec.
  eexists. split; [reflexivity|].
  assert (L : reconnectAttempts (onStateChange CONNECTED s) < MAX_RECONNECT_ATTEMPTS)
    by (rewrite Hc; reflexivity).
  destruct (onStateChange_disconnected_below _ L) as (Hi & Hc' & Ht' & _).
  rewrite Hi, Hc', Ht', Hc, Ht. repeat split.
Qed.

Lemma reconnect_resumes_after_reset_witness :
  client fresh_session <> None /\
  exists s',
    run [StateChange CONNECTED; StateChange DISCONNECTED] fresh_session = Some s' /\
    reconnectAttempts s' = 1.
Proof.
  assert (H : client fresh_session <> None) by discriminate.
  split; [exact H|].
  destruct (reconnect_resumes_after_reset fresh_session H) as (s' & Hrun & _ & Hc & _).
  exists s'. split; [exact Hrun|exact Hc].
Defined.

Lemma flap_and_reset_adds (n : nat) :
  forall s, client s <> None -> reconnectAttempts s = 0 ->
    exists s', run (flap_and_reset n) s = Some s' /\
               client s' <> None /\ reconnectAttempts s' = 0 /\
               outstanding s' = (outstanding s + n)%nat.
Proof.
  induction n as [|n IH]; intros s Hc Hr.
  - exists s. simpl. repeat split; auto.
  - cbn [flap_and_reset run step].
    destruct (client s) as [k|] eqn:Ec; [|contradiction].
    assert (L : reconnectAttempts s < MAX_RECONNECT_ATTEMPTS) by (rewrite Hr; reflexivity).
    destruct (onStateChange_disconnected_below s L) as (_ & _ & Ht & Hi).
    destruct (onStateChange_outstanding DISCONNECTED s) as (_ & Hk & _).
    rewrite Hk, Ec.
    destruct (IH (onQRCode (onStateChange DISCONNECTED s))) as (s' & Hrun & Hc' & Hr' & Ho).
    + simpl. rewrite Hk, Ec. discriminate.
    + reflexivity.
    + exists s'. split; [exact Hrun|]. repeat split; auto.
      rewrite Ho. unfold outstanding. simpl. rewrite Ht, Hi, length_app. simpl. lia.
Qed.

(** X4.  With resets the number of outstanding starts has no bound: for
    every [n] there is a run, of disconnections each followed by a QR
    code, that leaves [n] retries scheduled at once. *)
Theorem outstanding_starts_unbounded (n : nat) :
  exists s,
    run (CreateSettles true :: flap_and_reset n) (boot true) = Some s /\
    outstanding s = n.
Proof.
  destruct (flap_and_reset_adds n fresh_session) as (s & Hrun & _ & _ & Ho).
  - discriminate.
  - reflexivity.
  - exists s. split; [exact Hrun|]. rewrite Ho. reflexivity.
Qed.

Lemma Forall_remove_nth {A} (P : A -> Prop) (i : nat) (l r : list A) :
  remove_nth i l = Some r -> Forall P l -> Forall P r.
Proof.
  revert i r; induction l as [|x l IH]; intros [|i] r H Hf; simpl in H; try discriminate.
  - inversion H; subst. now inversion Hf.
  - destruct (remove_nth i l) as [r'|] eqn:E; [|discriminate].
    inversion H; subst. inversion Hf; subst. constructor; eauto.
Qed.

Lemma step_timers_in_range (e : Event) (s s' : State) :
  step e s = Some s' -> timers_in_range s -> timers_in_range s'.
Proof.
  unfold timers_in_range.
  destruct e as [i c|created| |state|ok|]; intros H (H0 & Hf); simpl in H.
  6:{ destruct (inFlight s); [discriminate|]. inversion H; subst; clear H.
      destruct (registration_throws_effect s) as (Hc & Ht & _).
      rewrite Hc, Ht. split; [lia|].
      destruct (reconnectAttempts s + 1 <? MAX_RECONNECT_ATTEMPTS); [|assumption].
      apply Forall_app. split; [assumption|]. constructor; [lia|constructor]. }
  - destruct (remove_nth i (timeouts s)) as [l|] eqn:E; [|discriminate].
    inversion H; subst; clear H.
    destruct (enter_effect c (clear_timeout l s)) as (Hc & Ht & _).
    rewrite Hc, Ht. simpl. split; [assumption|].
    eapply Forall_remove_nth; eauto.
  - destruct (inFlight s); [discriminate|]. inversion H; subst; clear H.
    unfold initializeWhatsApp_settle. destruct created; [simpl; auto|].
    rewrite catch_counter, catch_timeouts. simpl.
    split; [lia|].
    destruct (reconnectAttempts s + 1 <? MAX_RECONNECT_ATTEMPTS); [|assumption].
    apply Forall_app. split; [assumption|]. constructor; [lia|constructor].
  - destruct (client s); [|discriminate]. inversion H; subst. simpl.
    split; [lia|assumption].
  - destruct (client s); [|discriminate]. inversion H; subst; clear H.
    destruct (state =? CONNECTED)%string eqn:Ec.
    + apply String.eqb_eq in Ec; subst state.
      destruct (onStateChange_connected s) as (_ & Hc & Ht & _).
      rewrite Hc, Ht. split; [lia|assumption].
    + destruct (state =? DISCONNECTED)%string eqn:Ed.
      * apply String.eqb_eq in Ed; subst state.
        destruct (Z_lt_le_dec (reconnectAttempts s) MAX_RECONNECT_ATTEMPTS) as [L|L].
        -- destruct (onStateChange_disconnected_below s L) as (_ & Hc & Ht & _).
           rewrite Hc, Ht. split; [lia|].
           apply Forall_app. split; [assumption|]. constructor; [lia|constructor].
        -- destruct (onStateChange_disconnected_at_max s L) as (Hc & Ht & _).
           rewrite Hc, Ht. auto.
      * destruct (onStateChange_other state s Ec Ed) as (Hc & Ht & _).
        rewrite Hc, Ht. auto.
  - destruct (intervals s); [discriminate|]. inversion H; subst.
    destruct (livenessCheck_frame ok s) as (Hc & Ht & _).
    rewrite Hc, Ht. auto.
Qed.

(** X5.  In every state the server can reach, the counter is not
    negative and every scheduled retry is due after at least 5 and at
    most 30 seconds. *)
Theorem scheduled_retries_within_thirty_seconds (s : State) (Hreach : reachable s) :
  0 <= reconnectAttempts s /\
  Forall (fun d => 5000 <= d <= 30000) (timeouts s).
Proof.
  destruct Hreach as (c & tr & Hrun).
  assert (Hinit : timers_in_range (boot c))
    by (destruct c; split; simpl; (lia || constructor)).
  revert Hrun Hinit. generalize (boot c) as s0.
  induction tr as [|e tr IH]; simpl; intros s0 Hrun Hinit.
  - now inversion Hrun; subst.
  - destruct (step e s0) as [s1|] eqn:E; [|discriminate].
    eauto using step_timers_in_range.
Qed.

Lemma scheduled_retries_within_thirty_seconds_witness :
  Forall (fun d => 5000 <= d <= 30000) (timeouts (onStateChange DISCONNECTED fresh_session)).
Proof.
  assert (H : reachable (onStateChange DISCONNECTED fresh_session))
    by (exists true, [CreateSettles true; StateChange DISCONNECTED]; reflexivity).
  exact (proj2 (scheduled_retries_within_thirty_seconds _ H)).
Defined.

Lemma sessions_frame (s t : State) :
  client t = client s -> intervals t = intervals s ->
  List.length (intervals t) = (List.length (intervals s) + 0)%nat /\
  sessions t = (sessions s + 0 + 0)%nat.
Proof.
  intros Hk Hn. unfold sessions. rewrite Hk, Hn. split; lia.
Qed.

Lemma step_sessions (e : Event) (s s' : State) :
  step e s = Some s' ->
  List.length (intervals s') = (List.length (intervals s) + created [e])%nat /\
  sessions s' = (sessions s + created [e] + thrown [e])%nat.
Proof.
  destruct e as [i c|ok| |state|ok|]; intros H; simpl in H.
  - destruct (remove_nth i (timeouts s)) as [l|]; [|discriminate].
    inversion H; subst; clear H.
    destruct (enter_effect c (clear_timeout l s)) as (_ & _ & _ & Hk & Hn & _).
    apply sessions_frame; assumption.
  - destruct (inFlight s); [discriminate|]. inversion H; subst; clear H.
    unfold initializeWhatsApp_settle. destruct ok.
    + unfold sessions, created, thrown. simpl. rewrite length_app. simpl.
      destruct (client s); simpl; lia.
    + destruct (catch_frame (set_inFlight (Nat.pred (inFlight s)) s))
        as (_ & _ & Hk & Hn).
      apply sessions_frame; assumption.
  - destruct (client s) eqn:Ec; [|discriminate]. inversion H; subst.
    apply sessions_frame; reflexivity.
  - destruct (client s) eqn:Ec; [|discriminate]. inversion H; subst; clear H.
    destruct (onStateChange_outstanding state s) as (_ & Hk & Hn).
    apply sessions_frame; assumption.
  - destruct (intervals s) eqn:Ei; [discriminate|]. inversion H; subst; clear H.
    destruct (livenessCheck_frame ok s) as (_ & _ & _ & Hk & Hn).
    rewrite <- Ei. apply sessions_frame; assumption.
  - destruct (inFlight s); [discriminate|]. inversion H; subst; clear H.
    destruct (registration_throws_effect s) as (_ & _ & _ & _ & Hk & Hn).
    unfold sessions, created, thrown. rewrite Hk, Hn. simpl.
    destruct (client s); lia.
Qed.

Lemma created_cons (e : Event) (tr : list Event) :
  created (e :: tr) = (created [e] + created tr)%nat /\
  thrown (e :: tr) = (thrown [e] + thrown tr)%nat.
Proof. unfold created, thrown. simpl. destruct e as [| [|] | | | |]; split; reflexivity. Qed.

Lemma run_sessions (tr : list Event) :
  forall s0 s1, run tr s0 = Some s1 ->
    List.length (intervals s1) = (List.length (intervals s0) + created tr)%nat /\
    sessions s1 = (sessions s0 + created tr + thrown tr)%nat.
Proof.
  induction tr as [|e tr IH]; simpl; intros s0 s1 H.
  - inversion H; subst. unfold created, thrown; simpl. lia.
  - destruct (step e s0) as [s'|] eqn:E; [|discriminate].
    destruct (step_sessions e s0 s' E) as (Hl & Hs).
    destruct (IH s' s1 H) as (Hl1 & Hs1).
    destruct (created_cons e tr) as (Hc & Ht). lia.
Qed.

(** X6.  The liveness checks are never stopped: after any run, as many
    of them are registered as starts reached the end of their [try]
    ([create] resolved and every registration succeeded).  A start whose
    registration threw after [create] resolved leaves a session without
    a liveness check: the sessions created are the starts of both kinds. *)
Theorem one_liveness_check_per_completed_start (c : bool) (tr : list Event) (s : State)
  (Hrun : run tr (boot c) = Some s) :
  List.length (intervals s) = created tr /\
  sessions s = (created tr + thrown tr)%nat.
Proof.
  destruct (run_sessions tr _ _ Hrun) as (Hl & Hs).
  replace (List.length (intervals (boot c))) with 0%nat in Hl by (destruct c; reflexivity).
  replace (sessions (boot c)) with 0%nat in Hs by (destruct c; reflexivity).
  simpl in Hl, Hs. auto.
Qed.

Lemma one_liveness_check_per_completed_start_witness :
  exists s,
    run [RegistrationThrows; TimeoutFires 0 true; CreateSettles true] (boot true) = Some s /\
    List.length (intervals s) = 1%nat /\ sessions s = 2%nat.
Proof.
  eexists. split; [vm_compute; reflexivity|].
  refine (one_liveness_check_per_completed_start true
            [RegistrationThrows; TimeoutFires 0 true; CreateSettles true] _ _).
  vm_compute; reflexivity.
Defined.

Lemma livenessCheck_connected (ok : bool) (s : State) :
  isConnected (livenessCheck ok s) = true -> isConnected s = true.
Proof.
  unfold livenessCheck.
  destruct (client s); [|auto].
  destruct (isConnected s) eqn:E; [reflexivity|].
  simpl. now rewrite E.
Qed.

Lemma step_connected_has_client (e : Event) (s s' : State) :
  step e s = Some s' ->
  (isConnected s = true -> client s <> None) ->
  (isConnected s' = true -> client s' <> None).
Proof.
  destruct e as [i c|ok| |state|ok|]; intros H Hinv; simpl in H.
  6:{ destruct (inFlight s); [discriminate|]. inversion H; subst; clear H.
      destruct (registration_throws_effect s) as (_ & _ & _ & _ & Hk & _).
      rewrite Hk. discriminate. }
  - destruct (remove_nth i (timeouts s)) as [l|]; [|discriminate].
    inversion H; subst; clear H.
    destruct (enter_effect c (clear_timeout l s)) as (_ & _ & _ & Hk & _ & Hb).
    rewrite Hk, Hb. exact Hinv.
  - destruct (inFlight s); [discriminate|]. inversion H; subst; clear H.
    unfold initializeWhatsApp_settle. destruct ok.
    + simpl. intros _. destruct (client s); discriminate.
    + destruct (catch_frame (set_inFlight (Nat.pred (inFlight s)) s))
        as (_ & Hb & Hk & _).
      rewrite Hk, Hb. exact Hinv.
  - destruct (client s) eqn:Ec; [|discriminate]. inversion H; subst.
    simpl. rewrite Ec. discriminate.
  - destruct (client s) eqn:Ec; [|discriminate]. inversion H; subst; clear H.
    destruct (onStateChange_outstanding state s) as (_ & Hk & _).
    rewrite Hk, Ec. discriminate.
  - destruct (intervals s); [discriminate|]. inversion H; subst; clear H.
    destruct (livenessCheck_frame ok s) as (_ & _ & _ & Hk & _).
    rewrite Hk. intros Hc. apply Hinv. eapply livenessCheck_connected; eauto.
Qed.

(** X7.  In every state the server can reach, the connection flag is
    set only when a client exists; the gateway's test
    [!client || !isConnected] therefore comes to [!isConnected]. *)
Theorem connected_only_with_client (s : State) (Hreach : reachable s) :
  (isConnected s = true -> client s <> None) /\
  Gateway.connected_now s = isConnected s.
Proof.
  assert (H : isConnected s = true -> client s <> None).
  { destruct Hreach as (c & tr & Hrun).
    assert (Hinit : isConnected (boot c) = true -> client (boot c) <> None)
      by (destruct c; discriminate).
    revert Hrun Hinit. generalize (boot c) as s0.
    induction tr as [|e tr IH]; simpl; intros s0 Hrun Hinit.
    - now inversion Hrun; subst.
    - destruct (step e s0) as [s1|] eqn:E; [|discriminate].
      eauto using step_connected_has_client. }
  split; [exact H|].
  unfold Gateway.connected_now.
  destruct (client s); [reflexivity|].
  destruct (isConnected s); [|reflexivity].
  exfalso. now apply H.
Qed.

Lemma connected_only_with_client_witness :
  Gateway.connected_now connected_session = isConnected connected_session.
Proof.
  assert (H : reachable connected_session)
    by (exists true, [CreateSettles true; StateChange CONNECTED]; reflexivity).
  exact (proj2 (connected_only_with_client _ H)).
Defined.

Lemma step_one_at_a_time (e : Event) (s s' : State) :
  no_session [e] = true -> step e s = Some s' ->
  one_at_a_time s -> one_at_a_time s'.
Proof.
  unfold one_at_a_time, outstanding.
  destruct e as [i c|[|]| |state|ok|]; intros Hn H (Hk & Hi & Hb & Hr & Ho & Hm);
    simpl in Hn, H; try discriminate.
  - destruct (remove_nth i (timeouts s)) as [l|] eqn:E; [|discriminate].
    inversion H; subst; clear H. apply remove_nth_length in E.
    destruct (enter_effect c (clear_timeout l s)) as (Hc' & Ht' & Hf' & Hk' & Hi' & Hb').
    simpl in Hc', Ht', Hf', Hk', Hi', Hb'.
    rewrite Hc', Ht', Hf', Hk', Hi', Hb'.
    repeat split; try assumption; try lia.
    destruct c; lia.
  - destruct (inFlight s) as [|k] eqn:E; [discriminate|].
    inversion H; subst; clear H.
    assert (Hr' : reconnectAttempts (set_inFlight k s)
                  = reconnectAttempts s) by reflexivity.
    assert (Ht' : timeouts (set_inFlight k s) = timeouts s)
      by reflexivity.
    assert (Hi' : inFlight (set_inFlight k s) = k)
      by reflexivity.
    assert (Hk' : client (set_inFlight k s) = client s)
      by reflexivity.
    assert (Hn' : intervals (set_inFlight k s) = intervals s)
      by reflexivity.
    assert (Hb' : isConnected (set_inFlight k s) = isConnected s)
      by reflexivity.
    remember (set_inFlight k s) as t eqn:Et. clear Et.
    destruct (catch_frame t) as (Hf & Hc & Hcl & Hin).
    rewrite catch_timeouts, catch_counter, Hf, Hc, Hcl, Hin, Hr', Ht', Hi', Hk', Hn', Hb'.
    assert (Hne : reconnectAttempts s <> MAX_RECONNECT_ATTEMPTS)
      by (intros Hmax; specialize (Hm Hmax); lia).
    repeat split; try assumption; try lia;
      destruct (reconnectAttempts s + 1 <? MAX_RECONNECT_ATTEMPTS) eqn:L;
      rewrite ?length_app; cbn [List.length];
      [apply Z.ltb_lt in L|apply Z.ltb_ge in L|apply Z.ltb_lt in L|apply Z.ltb_ge in L];
      try lia.
Qed.

Lemma stopped_for_good (s : State) :
  client s = None -> intervals s = [] -> outstanding s = 0%nat ->
  forall e, step e s = None.
Proof.
  unfold outstanding. intros Hk Hi Ho.
  assert (Ht : timeouts s = []) by (destruct (timeouts s); [reflexivity|simpl in Ho; lia]).
  assert (Hf : inFlight s = 0%nat) by lia.
  intros [i c|ok| |state|ok|]; simpl; rewrite ?Ht, ?Hf, ?Hk, ?Hi; try reflexivity.
  destruct i; reflexivity.
Qed.

(** X8.  As long as no session is ever created (every [create]
    rejects, or the browser is missing), the supervisor tries one start
    at a time: at most one start is scheduled or in flight, the counter
    does not pass the maximum, and once it is at the maximum nothing is
    left that could run: the server stays up without a session. *)
Theorem without_session_one_start_at_a_time (c : bool) (tr : list Event) (s : State)
  (Hrun : run tr (boot c) = Some s)
  (Hnone : no_session tr = true) :
  client s = None /\
  isConnected s = false /\
  0 <= reconnectAttempts s <= MAX_RECONNECT_ATTEMPTS /\
  (outstanding s <= 1)%nat /\
  (reconnectAttempts s = MAX_RECONNECT_ATTEMPTS -> forall e, step e s = None).
Proof.
  assert (Hinit : one_at_a_time (boot c)).
  { unfold one_at_a_time, outstanding, MAX_RECONNECT_ATTEMPTS.
    destruct c; simpl; repeat split; try lia; discriminate. }
  assert (G : one_at_a_time s).
  { revert Hrun Hinit. generalize (boot c) as s0.
    induction tr as [|e tr IH]; simpl; intros s0 Hrun Hinit.
    - now inversion Hrun; subst.
    - simpl in Hnone. apply andb_prop in Hnone as [He Hn].
      destruct (step e s0) as [s1|] eqn:E; [|discriminate].
      apply (IH Hn s1 Hrun).
      apply (step_one_at_a_time e s0 s1); auto.
      simpl. now rewrite He. }
  destruct G as (Hk & Hi & Hb & Hr & Ho & Hm).
  repeat split; try assumption; try lia.
  intros Hmax. apply stopped_for_good; auto.
Qed.

Lemma without_session_one_start_at_a_time_witness :
  exists s,
    run (CreateSettles false :: List.concat (repeat retry_fails 9)) (boot true) = Some s /\
    (reconnectAttempts s = MAX_RECONNECT_ATTEMPTS -> forall e, step e s = None).
Proof.
  eexists. split; [vm_compute; reflexivity|].
  refine (proj2 (proj2 (proj2 (proj2
           (without_session_one_start_at_a_time true
              (CreateSettles false :: List.concat (repeat retry_fails 9)) _ _ _)))));
    [vm_compute; reflexivity|reflexivity].
Defined.

(** X9.  When the browser binary is missing as the server starts, no
    callback of the supervisor can ever run: no retry is pending, no
    handler is registered and no liveness check ticks.  The only run is
    the empty one, and the gateway never sees a connected session. *)
Theorem missing_chrome_at_boot_is_final (tr : list Event) (s : State)
  (Hrun : run tr (boot false) = Some s) :
  tr = [] /\ s = boot false /\ Gateway.connected_now s = false.
Proof.
  destruct tr as [|e tr].
  - inversion Hrun; subst. repeat split.
  - cbn [run] in Hrun.
    rewrite (stopped_for_good (boot false) eq_refl eq_refl eq_refl e) in Hrun.
    discriminate.
Qed.

Lemma missing_chrome_at_boot_is_final_witness :
  Gateway.connected_now (boot false) = false.
Proof.
  exact (proj2 (proj2 (missing_chrome_at_boot_is_final [] (boot false) eq_refl))).
Defined.

End SupervisorRuns.

(* ================================================================== *)
(** ** Further properties of the inbound relay *)
(* ================================================================== *)

Section RelayMore.
Import Js Relay.

(** X10.  A group message and a status broadcast are ignored without a
    trace: nothing is posted, nothing is written to the console, and
    the handler returns normally. *)
Theorem group_and_status_messages_ignored (cfg : Config) (net : Payload -> HttpOutcome)
    (now : Z) (m : Message)
    (Hskip : isGroupMsg m = true \/ from m = Some "status@broadcast"%string) :
  onMessage cfg net now m = ([], Normal tt).
Proof.
  unfold onMessage.
  destruct Hskip as [H|H]; rewrite H; [reflexivity|].
  rewrite String.eqb_refl, orb_true_r. reflexivity.
Qed.

Lemma group_and_status_messages_ignored_witness :
  onMessage (config_of_env None None) (fun _ => Responded 200) 0
    (mkMessage true (Some "120363@g.us"%string) (Some "Hi"%string) None None None
       EmptyString EmptyString (Some 1700000000))
  = ([], Normal tt).
Proof.
  exact (group_and_status_messages_ignored (config_of_env None None)
           (fun _ => Responded 200) 0
           (mkMessage true (Some "120363@g.us"%string) (Some "Hi"%string) None None None
              EmptyString EmptyString (Some 1700000000))
           (or_introl eq_refl)).
Defined.

Lemma or_else_truthy (a : option string) (b : string) :
  truthy_string a = true -> Some (or_else a b) = a.
Proof.
  destruct a as [s|]; simpl; [|discriminate].
  destruct (s =? "")%string; [discriminate|reflexivity].
Qed.

Lemma or_else_nonempty (a : option string) (b : string) :
  b <> EmptyString -> or_else a b <> EmptyString.
Proof.
  intros Hb. destruct a as [s|]; simpl; [|assumption].
  destruct (s =? "")%string eqn:E; [assumption|].
  now apply String.eqb_neq in E.
Qed.

(** X11.  The text sent to the CRM is never empty: it is the body when
    the message has one, else the caption when it has one, whatever the
    type of the message, and else a placeholder in square brackets. *)
Theorem message_text_never_empty (m : Message) :
  messageText m <> EmptyString /\
  (truthy_string (body m) = true -> Some (messageText m) = body m) /\
  (truthy_string (body m) = false -> truthy_string (caption m) = true ->
   Some (messageText m) = caption m) /\
  (truthy_string (body m) = false -> truthy_string (caption m) = false ->
   exists rest, messageText m = String "["%char rest).
Proof.
  unfold messageText.
  destruct (truthy_string (body m)) eqn:Eb.
  { pose proof (or_else_truthy (body m) "" Eb) as H.
    repeat split; try discriminate; auto.
    intros E. rewrite E in H. rewrite <- H in Eb. discriminate. }
  destruct (truthy_string (caption m)) eqn:Ec.
  { pose proof (or_else_truthy (caption m) "" Ec) as H.
    repeat split; try discriminate; auto.
    intros E. rewrite E in H. rewrite <- H in Ec. discriminate. }
  assert (Hcap : forall b, or_else (caption m) b = b).
  { intros b. destruct (caption m) as [s|]; simpl in *; [|reflexivity].
    destruct (s =? "")%string; [reflexivity|discriminate]. }
  rewrite !Hcap.
  assert (G : exists rest,
    (if match type m with Some t => (t =? "ptt")%string || (t =? "audio")%string
                        | None => false end
     then "[Audio Message]"%string
     else if match type m with Some t => (t =? "image")%string || (t =? "video")%string
                             | None => false end
     then "[Media Message]"%string
     else if match type m with Some t => (t =? "document")%string | None => false end
     then ("[Document: " ++ or_else (filename m) "File" ++ "]")%string
     else if match type m with Some t => (t =? "location")%string | None => false end
     then ("[Location: " ++ lat m ++ ", " ++ lng m ++ "]")%string
     else ("[" ++ or_else (type m) "Unsupported" ++ " Message]")%string)
    = String "["%char rest).
  { repeat match goal with
           | |- context [if ?b then _ else _] => destruct b
           end; simpl; eexists; reflexivity. }
  destruct G as (rest & G). rewrite G.
  repeat split; try discriminate. intros _ _. now exists rest.
Qed.

Lemma toISOString_defined (t : Z) :
  (exists iso, toISOString t = Normal iso) <-> Z.abs t <= 8640000000000000.
Proof.
  unfold toISOString.
  destruct (Z.abs t <=? 8640000000000000) eqn:E.
  - apply Z.leb_le in E. split; [auto|]. intros _. eexists. reflexivity.
  - apply Z.leb_gt in E. split; [|lia]. intros (iso & H). discriminate.
Qed.

(** X12.  Whatever the webhook answers, a message is posted exactly
    once when it is a direct message with a sender address and a
    representable time, and is not posted at all otherwise. *)
Theorem posted_once_iff_well_formed (cfg : Config) (net : Payload -> HttpOutcome)
    (now : Z) (m : Message) :
  (List.length (posted (fst (onMessage cfg net now m))) = 1%nat <->
   isGroupMsg m = false /\
   (exists f, from m = Some f /\ f <> "status@broadcast"%string) /\
   Z.abs (instant m now) <= 8640000000000000) /\
  (List.length (posted (fst (onMessage cfg net now m))) <> 1%nat ->
   posted (fst (onMessage cfg net now m)) = []).
Proof.
  rewrite onMessage_posted.
  destruct (from m) as [f|].
  2:{ split; [|reflexivity]. split; [discriminate|].
      intros (_ & (f & Hf & _) & _). discriminate. }
  destruct (isGroupMsg m); simpl.
  { split; [|reflexivity]. split; [discriminate|]. intros (H & _). discriminate. }
  destruct (f =? "status@broadcast")%string eqn:Ef.
  { apply String.eqb_eq in Ef. split; [|reflexivity]. split; [discriminate|].
    intros (_ & (f' & Hf & Hn) & _). inversion Hf; subst. contradiction. }
  apply String.eqb_neq in Ef.
  pose proof (toISOString_defined (instant m now)) as Hd.
  destruct (toISOString (instant m now)) as [iso|e].
  - split; [|intros H; contradiction H; reflexivity].
    split; [|reflexivity]. intros _. repeat split.
    + exists f. split; [reflexivity|assumption].
    + apply Hd. eauto.
  - split; [|reflexivity]. split; [discriminate|].
    intros (_ & _ & Hr). apply Hd in Hr. destruct Hr as (iso & Hr). discriminate.
Qed.

(** X13.  An event without a sender address, or with a timestamp
    beyond the range of dates, is dropped: the handler writes one error
    line, posts nothing and returns normally. *)
Theorem malformed_event_dropped (cfg : Config) (net : Payload -> HttpOutcome)
    (now : Z) (m : Message)
    (Hdirect : isGroupMsg m = false)
    (Hbad : from m = None \/
            (exists f, from m = Some f /\ f <> "status@broadcast"%string /\
                       8640000000000000 < Z.abs (instant m now))) :
  exists e, onMessage cfg net now m = ([ErrProcessing e], Normal tt).
Proof.
  unfold onMessage, timestampText. rewrite Hdirect.
  destruct Hbad as [Hf|(f & Hf & Hn & Ht)]; rewrite Hf.
  - eexists. reflexivity.
  - apply String.eqb_neq in Hn. rewrite Hn. unfold toISOString.
    assert (E : (Z.abs (instant m now) <=? 8640000000000000) = false)
      by (apply Z.leb_gt; lia).
    rewrite E. eexists. reflexivity.
Qed.

Lemma malformed_event_dropped_witness :
  exists e,
    onMessage (config_of_env None None) (fun _ => Responded 200) 0
      (mkMessage false (Some "919999999999@c.us"%string) (Some "Hi"%string) None None None
         EmptyString EmptyString (Some 1700000000000000))
    = ([ErrProcessing e], Normal tt).
Proof.
  apply malformed_event_dropped; [reflexivity|].
  right. exists "919999999999@c.us"%string.
  split; [reflexivity|]. split; [discriminate|]. vm_compute. reflexivity.
Defined.

(** X14.  [sendToCRM] reports success for the status 200 and for no
    other: any other answer below 500, such as 201 or 204, is written
    to the console as an error and reported as a failure; in every case
    exactly one request was made. *)
Theorem sendToCRM_succeeds_only_on_200 (cfg : Config) (net : Payload -> HttpOutcome)
    (data : Payload) :
  (snd (sendToCRM cfg net data) = Normal true <-> net data = Responded 200) /\
  (forall status, net data = Responded status -> status <> 200 -> status < 500 ->
     sendToCRM cfg net data =
       ([Post (CRM_WEBHOOK cfg) data 10000; ErrStatus status], Normal false)) /\
  posted (fst (sendToCRM cfg net data)) = [data].
Proof.
  split; [|split].
  - destruct (sendToCRM_shape cfg net data) as (line & -> & _ & _). simpl.
    destruct (net data) as [status| |reason]; split; intros H; try discriminate.
    + inversion H as [E]. apply Z.eqb_eq in E. now subst.
    + inversion H; subst. reflexivity.
  - intros status Hnet Hne Hlt.
    unfold sendToCRM, axios_post, bind, try_catch, emit, ret, throw; simpl.
    rewrite Hnet. apply Z.ltb_lt in Hlt. apply Z.eqb_neq in Hne.
    simpl. rewrite Hlt. simpl. rewrite Hne. reflexivity.
  - destruct (sendToCRM_shape cfg net data) as (line & -> & Hp & _). simpl.
    destruct line; try discriminate; reflexivity.
Qed.

End RelayMore.

(* ================================================================== *)
(** ** The timestamp of the payload, read back *)
(* ================================================================== *)

Section TimestampReading.
Import Js Relay Reading.

Lemma digit_value (n : Z) : Z.of_nat (nat_of_ascii (digit n)) - 48 = n mod 10.
Proof.
  unfold digit. pose proof (Z.mod_pos_bound n 10 ltac:(lia)) as H.
  rewrite nat_ascii_embedding by lia. lia.
Qed.

Lemma read_two_digits (x : Z) :
  0 <= x < 100 ->
  read_digits 0 (String (digit (x / 10)) (String (digit x) EmptyString)) = x.
Proof.
  intros H. cbn [read_digits]. rewrite !digit_value.
  Z.div_mod_to_equations. lia.
Qed.

Lemma read_four_digits (x : Z) :
  0 <= x < 10000 ->
  read_digits 0 (String (digit (x / 10 / 10 / 10)) (String (digit (x / 10 / 10))
                  (String (digit (x / 10)) (String (digit x) EmptyString)))) = x.
Proof.
  intros H. cbn [read_digits]. rewrite !digit_value.
  Z.div_mod_to_equations. lia.
Qed.

Lemma date_recompose (t : Z) :
  DayWithinYear t =
    days_before_month (InLeapYear t) (MonthFromTime t + 1) + (DateFromTime t - 1).
Proof.
  unfold DateFromTime, MonthFromTime.
  set (d := DayWithinYear t). set (l := InLeapYear t). clearbody d l.
  repeat match goal with
         | |- context [if ?a <? ?b then _ else _] => destruct (a <? b)
         end;
  match goal with
  | |- context [days_before_month _ (?k + 1)] =>
      let v := eval compute in (k + 1) in change (k + 1) with v
  end; cbn [days_before_month]; lia.
Qed.

Lemma time_recompose (t : Z) :
  t / 1000 =
    Day t * 86400 + HourFromTime t * 3600 + MinFromTime t * 60 + SecFromTime t.
Proof.
  unfold Day, msPerDay, HourFromTime, MinFromTime, SecFromTime.
  Z.div_mod_to_equations. lia.
Qed.

Lemma time_fields_range (t : Z) :
  0 <= HourFromTime t < 24 /\ 0 <= MinFromTime t < 60 /\ 0 <= SecFromTime t < 60.
Proof.
  unfold HourFromTime, MinFromTime, SecFromTime.
  repeat split; apply Z.mod_pos_bound; lia.
Qed.

Lemma timestamp_reads_back (t : Z) :
  -62167219200000 <= t < 253402300800000 ->
  exists iso, toISOString t = Normal iso /\
    epoch_second (replace_first "T" " " (substring 0 19 iso)) = t / 1000.
Proof.
  intros Ht. unfold toISOString.
  assert (Hc : (Z.abs t <=? 8640000000000000) = true) by (apply Z.leb_le; lia).
  rewrite Hc. eexists. split; [reflexivity|].
  pose proof (YearFromTime_four_digits t Ht) as Hy.
  unfold year_string.
  assert (Hb : ((0 <=? YearFromTime t) && (YearFromTime t <=? 9999)) = true)
    by (apply andb_true_intro; split; apply Z.leb_le; lia).
  rewrite Hb.
  cbn [pad String.append substring].
  repeat (rewrite replace_first_skip by (apply digit_not_T || discriminate)).
  rewrite replace_first_hit.
  cbn [String.append].
  unfold epoch_second. cbn [substring].
  destruct (DateFromTime_range t) as (Hm & Hd).
  destruct (time_fields_range t) as (Hh & Hmi & Hs).
  rewrite read_four_digits by lia.
  rewrite !read_two_digits by lia.
  fold (InLeapYear t).
  rewrite (time_recompose t).
  pose proof (date_recompose t) as Hr. unfold DayWithinYear in Hr.
  lia.
Qed.

(** X15.  The timestamp of a forwarded payload, read as a UTC date and
    time, is the second of the instant it was made from: the epoch
    seconds the adapter gave when the message carries a timestamp (the
    round trip of [message.timestamp]), and the second of the current
    time otherwise.  Only the milliseconds are lost. *)
Theorem payload_timestamp_reads_back (cfg : Config) (net : Payload -> HttpOutcome)
    (now : Z) (m : Message) (p : Payload)
    (Hyear : four_digit_year (instant m now))
    (Hp : In p (posted (fst (onMessage cfg net now m)))) :
  epoch_second (timestamp_text p) = instant m now / 1000 /\
  (forall ts, timestamp m = Some ts -> ts <> 0 ->
              epoch_second (timestamp_text p) = ts).
Proof.
  assert (H : epoch_second (timestamp_text p) = instant m now / 1000).
  { rewrite onMessage_posted in Hp.
    destruct (from m) as [f|]; [|contradiction].
    destruct (isGroupMsg m || (f =? "status@broadcast")%string); [contradiction|].
    destruct (timestamp_reads_back _ Hyear) as (iso & E & Hread).
    rewrite E in Hp. destruct Hp as [<-|[]]. exact Hread. }
  split; [exact H|].
  intros ts Hts Hnz. rewrite H. unfold instant. rewrite Hts.
  apply Z.eqb_neq in Hnz. rewrite Hnz. apply Z.div_mul. lia.
Qed.

Lemma payload_timestamp_reads_back_witness :
  epoch_second
    (timestamp_text (mkPayload "key" "919999999999" "Hi" "customer" "2023-11-14 22:13:20"))
  = 1700000000.
Proof.
  assert (Hy : four_digit_year (instant example_message 0))
    by (vm_compute; split; [discriminate|reflexivity]).
  assert (Hp : In (mkPayload "key" "919999999999" "Hi" "customer" "2023-11-14 22:13:20")
                  (posted (fst (onMessage (config_of_env (Some "key"%string) None)
                                  (fun _ => Responded 200) 0 example_message))))
    by (vm_compute; left; reflexivity).
  exact (proj2 (payload_timestamp_reads_back _ _ 0 example_message _ Hy Hp)
           1700000000 eq_refl ltac:(discriminate)).
Defined.

End TimestampReading.

(* ================================================================== *)
(** ** Further properties of the outbound gateway *)
(* ================================================================== *)

Section GatewayMore.
Import Js Gateway.

Lemma strip_non_digits_digits (s : string) : digits_only (strip_non_digits s) = true.
Proof.
  induction s as [|c s IH]; [reflexivity|]. simpl.
  destruct (is_digit c) eqn:E; [simpl; now rewrite E|assumption].
Qed.

Lemma strip_non_digits_fixed (s : string) :
  digits_only s = true -> strip_non_digits s = s.
Proof.
  induction s as [|c s IH]; [reflexivity|]. simpl. intros H.
  apply andb_prop in H as [Hc Hs]. rewrite Hc. now rewrite IH.
Qed.

Lemma strip_non_digits_length (s : string) :
  (String.length (strip_non_digits s) <= String.length s)%nat.
Proof.
  induction s as [|c s IH]; [reflexivity|]. simpl.
  destruct (is_digit c); simpl; lia.
Qed.

(** The seven ways the handler can end. *)
Lemma send_message_cases (K : string) (s : Supervisor.State)
    (sendText : string -> Value -> Completion unit) (req : Request) :
  (authorized K req = false /\
   send_message K s sendText req =
     ([WarnInvalidKey],
      Normal (mkResponse 401
                (mkJson false (Some "Invalid sync key"%string) None None None)))) \/
  (authorized K req = true /\
   (truthy (phone req) = false \/ truthy (message req) = false) /\
   send_message K s sendText req =
     ([], Normal (mkResponse 400
                    (mkJson false (Some "Phone and message are required"%string)
                            None None None)))) \/
  (authorized K req = true /\ truthy (phone req) = true /\ truthy (message req) = true /\
   connected_now s = false /\
   send_message K s sendText req =
     ([], Normal (mkResponse 503
                    (mkJson false
                       (Some "WhatsApp not connected. Please scan QR code first."%string)
                       None None (Some false))))) \/
  (authorized K req = true /\ truthy (phone req) = true /\ truthy (message req) = true /\
   connected_now s = true /\ is_string (phone req) = false /\
   send_message K s sendText req =
     ([ErrEndpoint (TypeError "phone.replace is not a function")],
      Normal (mkResponse 500
                (mkJson false (Some "phone.replace is not a function"%string)
                        None None None)))) \/
  (exists ph,
     authorized K req = true /\ truthy (message req) = true /\
     connected_now s = true /\ phone req = Str ph /\
     Z.of_nat (String.length (strip_non_digits ph)) < 10 /\
     send_message K s sendText req =
       ([], Normal (mkResponse 400
                      (mkJson false (Some "Invalid phone number format"%string)
                              None None None)))) \/
  (exists ph,
     authorized K req = true /\ truthy (message req) = true /\
     connected_now s = true /\ phone req = Str ph /\
     10 <= Z.of_nat (String.length (strip_non_digits ph)) /\
     sendText (strip_non_digits ph ++ "@c.us")%string (message req) = Normal tt /\
     send_message K s sendText req =
       ([SendText (strip_non_digits ph ++ "@c.us")%string (message req);
         LogSent (strip_non_digits ph)],
        Normal (mkResponse 200
                  (mkJson true None (Some "Message sent successfully"%string)
                          (Some (strip_non_digits ph)) None)))) \/
  (exists ph e,
     authorized K req = true /\ truthy (message req) = true /\
     connected_now s = true /\ phone req = Str ph /\
     10 <= Z.of_nat (String.length (strip_non_digits ph)) /\
     sendText (strip_non_digits ph ++ "@c.us")%string (message req) = Throw e /\
     send_message K s sendText req =
       ([SendText (strip_non_digits ph ++ "@c.us")%string (message req); ErrSend e],
        Normal (mkResponse 500
                  (mkJson false
                     (Some (message_or e "Failed to send message via WhatsApp"))
                     None None None)))).
Proof.
  destruct (authorized K req) eqn:Ea.
  2:{ left. split; [reflexivity|]. now apply unauthorized_answer. }
  right.
  unfold send_message, connected_now.
  unfold authorized in Ea. apply andb_prop in Ea as [Ek Es].
  rewrite Ek, Es. cbn [negb orb andb].
  destruct (truthy (phone req)) eqn:Ep; cbn [negb orb andb]; [|left; auto].
  destruct (truthy (message req)) eqn:Em; cbn [negb orb andb]; [|left; auto].
  right.
  destruct (Supervisor.client s) as [c|]; cbn [negb orb andb]; [|left; auto 10].
  destruct (Supervisor.isConnected s); cbn [negb orb andb]; [|left; auto 10].
  right.
  destruct (phone req) as [| |b|n|ph|] eqn:Eph;
    try (left; repeat split; reflexivity).
  right. simpl.
  destruct (Z.of_nat (String.length (strip_non_digits ph)) <? 10) eqn:El; simpl.
  { left. exists ph. apply Z.ltb_lt in El. auto 10. }
  right. apply Z.ltb_ge in El.
  destruct (sendText (strip_non_digits ph ++ "@c.us")%string (message req)) as [[]|e] eqn:Et;
    simpl.
  - left. exists ph. auto 10.
  - right. exists ph, e. auto 10.
Qed.

(** X16.  While no session is connected, a request with the right key,
    a phone and a message is answered 503 with [connected: false],
    whatever the phone looks like, and the adapter is not called. *)
Theorem offline_request_gets_503 (K : string) (s : Supervisor.State)
    (sendText : string -> Value -> Completion unit) (req : Request)
    (Hauth : authorized K req = true)
    (Hphone : truthy (phone req) = true)
    (Hmessage : truthy (message req) = true)
    (Hoffline : connected_now s = false) :
  send_message K s sendText req =
    ([], Normal (mkResponse 503
                   (mkJson false
                      (Some "WhatsApp not connected. Please scan QR code first."%string)
                      None None (Some false)))).
Proof.
  destruct (send_message_cases K s sendText req)
    as [(H & _)|[(_ & [H|H] & _)|[(_ & _ & _ & _ & H)|[(_ & _ & _ & H & _)|
        [(ph & _ & _ & H & _)|[(ph & _ & _ & H & _)|(ph & e & _ & _ & H & _)]]]]]];
    try congruence.
Qed.

Lemma offline_request_gets_503_witness :
  answered (send_message "secret" Supervisor.init always_sent short_phone_request)
  = Some 503.
Proof.
  rewrite (offline_request_gets_503 "secret" Supervisor.init always_sent
             short_phone_request eq_refl eq_refl eq_refl eq_refl).
  reflexivity.
Defined.

(** X17.  The adapter is called at most once per request, and only for
    an authorized request while a session is connected; the chat id it
    receives is the phone reduced to its digits, at least ten of them,
    followed by [@c.us], and the text is the message of the request. *)
Theorem adapter_call_well_formed (K : string) (s : Supervisor.State)
    (sendText : string -> Value -> Completion unit) (req : Request)
    (chatId : string) (text : Value)
    (Hcall : In (chatId, text) (sends (fst (send_message K s sendText req)))) :
  (exists ph,
     phone req = Str ph /\
     chatId = (strip_non_digits ph ++ "@c.us")%string /\
     digits_only (strip_non_digits ph) = true /\
     (10 <= String.length (strip_non_digits ph))%nat) /\
  text = message req /\
  authorized K req = true /\
  connected_now s = true /\
  sends (fst (send_message K s sendText req)) = [(chatId, text)].
Proof.
  destruct (send_message_cases K s sendText req)
    as [(_ & H)|[(_ & _ & H)|[(_ & _ & _ & _ & H)|[(_ & _ & _ & _ & _ & H)|
        [(ph & _ & _ & _ & _ & _ & H)|[(ph & Ha & _ & Hc & Hp & Hl & _ & H)|
         (ph & e & Ha & _ & Hc & Hp & Hl & _ & H)]]]]]];
    rewrite H in Hcall |- *; simpl in Hcall; try contradiction;
    destruct Hcall as [E|[]]; inversion E; subst;
    (split; [exists ph; repeat split; auto using strip_non_digits_digits; lia|]);
    repeat split; auto.
Qed.

Lemma adapter_call_well_formed_witness :
  sends (fst (send_message "secret" Supervisor.connected_session always_sent
                (mkRequest (Str "secret") (Str "+91 99999 99999") (Str "hello"))))
  = [("919999999999@c.us"%string, Str "hello")].
Proof.
  assert (H : In ("919999999999@c.us"%string, Str "hello")
                 (sends (fst (send_message "secret" Supervisor.connected_session
                                always_sent
                                (mkRequest (Str "secret") (Str "+91 99999 99999")
                                           (Str "hello"))))))
    by (vm_compute; left; reflexivity).
  exact (proj2 (proj2 (proj2 (proj2 (adapter_call_well_formed _ _ _ _ _ _ H))))).
Defined.

(** X18.  Reducing a phone to its digits yields digits only, never
    lengthens it, leaves a digits-only phone as it is, and doing it
    twice changes nothing: the phone of a 200 answer can be sent back
    as it is. *)
Theorem strip_non_digits_normal_form (p : string) :
  digits_only (strip_non_digits p) = true /\
  strip_non_digits (strip_non_digits p) = strip_non_digits p /\
  (digits_only p = true -> strip_non_digits p = p) /\
  (String.length (strip_non_digits p) <= String.length p)%nat.
Proof.
  repeat split.
  - apply strip_non_digits_digits.
  - apply strip_non_digits_fixed, strip_non_digits_digits.
  - apply strip_non_digits_fixed.
  - apply strip_non_digits_length.
Qed.

(** The handler's answer does not depend on the adapter when the
    adapter is not called. *)
Lemma send_message_without_call (K : string) (s : Supervisor.State)
    (sendText sendText' : string -> Value -> Completion unit) (req : Request) :
  sends (fst (send_message K s sendText req)) = [] ->
  send_message K s sendText' req = send_message K s sendText req.
Proof.
  unfold send_message.
  destruct (negb (truthy (key req)) || negb (strict_eq_string (key req) K));
    [reflexivity|].
  destruct (negb (truthy (phone req)) || negb (truthy (message req)));
    [reflexivity|].
  destruct (match Supervisor.client s with None => true | Some _ => false end
            || negb (Supervisor.isConnected s)); [reflexivity|].
  destruct (phone req) as [| |b|n|ph|]; try reflexivity.
  simpl.
  destruct (Z.of_nat (String.length (strip_non_digits ph)) <? 10); [reflexivity|].
  simpl.
  destruct (sendText (strip_non_digits ph ++ "@c.us")%string (message req)) as [[]|e];
    simpl; intros H; discriminate.
Qed.

(** X19.  A request that is stopped by one of the checks is answered
    without a call to the adapter, with the same answer whatever the
    adapter would do.  A request that reaches [client.sendText] is
    answered once that call settles, by returning or by throwing: the
    handler sets no timeout on the call, and [sendText] here is what
    the settled call comes to.  Every answer has one of the statuses
    200, 400, 401, 500 and 503 and says [ok: true] exactly when the
    status is 200; no exception leaves the handler. *)
Theorem gateway_answers_once_send_settles (K : string) (s : Supervisor.State)
    (sendText : string -> Value -> Completion unit) (req : Request) :
  (exists resp,
     snd (send_message K s sendText req) = Normal resp /\
     In (status resp) [200; 400; 401; 500; 503] /\
     (ok (json resp) = true <-> status resp = 200)) /\
  (sends (fst (send_message K s sendText req)) = [] ->
   forall sendText',
     send_message K s sendText' req = send_message K s sendText req).
Proof.
  split.
  - destruct (send_message_cases K s sendText req)
      as [(_ & H)|[(_ & _ & H)|[(_ & _ & _ & _ & H)|[(_ & _ & _ & _ & _ & H)|
          [(ph & _ & _ & _ & _ & _ & H)|[(ph & _ & _ & _ & _ & _ & _ & H)|
           (ph & e & _ & _ & _ & _ & _ & _ & H)]]]]]];
      rewrite H; eexists; (split; [reflexivity|]); simpl;
      (split; [tauto|]); split; intros E; (discriminate || reflexivity).
  - intros H sendText'. now apply send_message_without_call.
Qed.

(** X20.  When the adapter throws, the handler answers 500 with the
    message of the error, or with a fixed text when the error has none;
    the adapter was called once and is not called again. *)
Theorem send_failure_reported (K : string) (s : Supervisor.State)
    (sendText : string -> Value -> Completion unit) (req : Request)
    (ph : string) (e : Error)
    (Hauth : authorized K req = true)
    (Hmessage : truthy (message req) = true)
    (Hconn : connected_now s = true)
    (Hphone : phone req = Str ph)
    (Hlen : 10 <= Z.of_nat (String.length (strip_non_digits ph)))
    (Hthrow : sendText (strip_non_digits ph ++ "@c.us")%string (message req) = Throw e) :
  send_message K s sendText req =
    ([SendText (strip_non_digits ph ++ "@c.us")%string (message req); ErrSend e],
     Normal (mkResponse 500
               (mkJson false
                  (Some (if (Js.message e =? "")%string
                         then "Failed to send message via WhatsApp"%string
                         else Js.message e))
                  None None None))).
Proof.
  destruct (send_message_cases K s sendText req)
    as [(H & _)|[(_ & [H|H] & _)|[(_ & _ & _ & H & _)|[(_ & _ & _ & _ & H & _)|
        [(ph' & _ & _ & _ & Hp & H & _)|[(ph' & _ & _ & _ & Hp & _ & H & _)|
         (ph' & e' & _ & _ & _ & Hp & _ & Ht & H)]]]]]].
  - congruence.
  - rewrite Hphone in H. simpl in H.
    destruct (ph =? "")%string eqn:E; [|discriminate].
    apply String.eqb_eq in E; subst ph. simpl in Hlen. lia.
  - congruence.
  - congruence.
  - rewrite Hphone in H. discriminate.
  - rewrite Hphone in Hp. inversion Hp; subst. lia.
  - rewrite Hphone in Hp. inversion Hp; subst. congruence.
  - rewrite Hphone in Hp. inversion Hp; subst.
    rewrite Hthrow in Ht. inversion Ht; subst. exact H.
Qed.

Lemma send_failure_reported_witness :
  answered (send_message "secret" Supervisor.connected_session
              (fun _ _ => Throw (mkError "Evaluation failed" None false))
              (mkRequest (Str "secret") (Str "919999999999") (Str "hello")))
  = Some 500.
Proof.
  rewrite (send_failure_reported "secret" Supervisor.connected_session
             (fun _ _ => Throw (mkError "Evaluation failed" None false))
             (mkRequest (Str "secret") (Str "919999999999") (Str "hello"))
             "919999999999" (mkError "Evaluation failed" None false)
             eq_refl eq_refl eq_refl eq_refl ltac:(vm_compute; discriminate) eq_refl).
  reflexivity.
Defined.

(** X21.  A request passes the key check exactly when its key is a
    string, is not empty and equals the configured key; a number, a
    boolean or an object never passes.  The answer is 401 exactly when
    the request does not pass. *)
Theorem key_check_exact (K : string) (s : Supervisor.State)
    (sendText : string -> Value -> Completion unit) (req : Request) :
  (authorized K req = true <-> key req = Str K /\ K <> EmptyString) /\
  (answered (send_message K s sendText req) = Some 401 <-> authorized K req = false).
Proof.
  split.
  - unfold authorized. destruct (key req) as [| |b|n|k|]; simpl;
      rewrite ?andb_false_r; try (split; [discriminate|intros (H & _); discriminate]).
    destruct (k =? K)%string eqn:E.
    + apply String.eqb_eq in E; subst k. rewrite andb_true_r.
      destruct (K =? "")%string eqn:E0; simpl.
      * apply String.eqb_eq in E0. split; [discriminate|]. intros (_ & H). contradiction.
      * apply String.eqb_neq in E0. split; auto.
    + apply String.eqb_neq in E. rewrite andb_false_r.
      split; [discriminate|]. intros (H & _). inversion H. contradiction.
  - destruct (send_message_cases K s sendText req)
      as [(Ha & H)|[(Ha & _ & H)|[(Ha & _ & _ & _ & H)|[(Ha & _ & _ & _ & _ & H)|
          [(ph & Ha & _ & _ & _ & _ & H)|[(ph & Ha & _ & _ & _ & _ & _ & H)|
           (ph & e & Ha & _ & _ & _ & _ & _ & H)]]]]]];
      unfold answered; rewrite H, Ha; simpl; split; intros E;
      (discriminate || reflexivity).
Qed.

End GatewayMore.

(* ================================================================== *)
(** ** Properties of the start-up checks and of the shutdown *)
(* ================================================================== *)

Section StartupShutdownFacts.
Import Js.

Lemma in_sync_key_warning (cfg : Relay.Config) :
  In Startup.WarnSyncKey (Startup.startup_warnings cfg) <->
  Relay.SYNC_KEY cfg = EmptyString \/ Relay.SYNC_KEY cfg = Startup.placeholder_key.
Proof.
  unfold Startup.startup_warnings. rewrite in_app_iff. simpl.
  destruct (Relay.SYNC_KEY cfg =? "")%string eqn:E0;
    destruct (Relay.SYNC_KEY cfg =? Startup.placeholder_key)%string eqn:E1; simpl;
    rewrite ?String.eqb_eq, ?String.eqb_neq in *.
  1-3: split; [tauto|]; intros _; left; left; reflexivity.
  split; [|tauto].
  intros [[]|H].
  destruct (_ || _) in H; simpl in H; [destruct H as [H|[]]; discriminate|contradiction].
Qed.

(** X22.  The key warning at start-up is printed exactly when the
    gateway is closed to every request (the key is empty) or open to
    the published placeholder key; in the second case the server runs
    all the same, and a request that carries the placeholder passes the
    key check. *)
Theorem key_warning_exact (cfg : Relay.Config) :
  (In Startup.WarnSyncKey (Startup.startup_warnings cfg) <->
   (forall req, Gateway.authorized (Relay.SYNC_KEY cfg) req = false) \/
   Relay.SYNC_KEY cfg = Startup.placeholder_key) /\
  (Relay.SYNC_KEY cfg = Startup.placeholder_key ->
   forall req s sendText,
     Gateway.key req = Str Startup.placeholder_key ->
     Gateway.answered (Gateway.send_message (Relay.SYNC_KEY cfg) s sendText req)
       <> Some 401).
Proof.
  split.
  - rewrite in_sync_key_warning. split.
    + intros [H|H]; [left|right; assumption].
      intros req. rewrite H. apply empty_key_never_authorized.
    + intros [H|H]; [left|right; assumption].
      specialize (H (Gateway.mkRequest (Str (Relay.SYNC_KEY cfg)) Undefined Undefined)).
      unfold Gateway.authorized in H. simpl in H.
      rewrite String.eqb_refl, andb_true_r in H.
      destruct (Relay.SYNC_KEY cfg =? "")%string eqn:E; [|discriminate].
      now apply String.eqb_eq in E.
  - intros Hcfg req s sendText Hkey.
    assert (Ha : Gateway.authorized (Relay.SYNC_KEY cfg) req = true)
      by (unfold Gateway.authorized; rewrite Hkey, Hcfg; reflexivity).
    destruct (send_message_cases (Relay.SYNC_KEY cfg) s sendText req)
      as [(Hf & H)|[(_ & _ & H)|[(_ & _ & _ & _ & H)|[(_ & _ & _ & _ & _ & H)|
          [(ph & _ & _ & _ & _ & _ & H)|[(ph & _ & _ & _ & _ & _ & _ & H)|
           (ph & e & _ & _ & _ & _ & _ & _ & H)]]]]]];
      [congruence|..]; unfold Gateway.answered; rewrite H; discriminate.
Qed.

(** X23.  Whatever the environment, the configured webhook address is
    not empty, so the first half of the webhook check never fires: the
    warning is printed exactly when the address contains
    [jewelsteps.com], which includes every start without
    [CRM_WEBHOOK]. *)
Theorem webhook_warning_exact (sync_key crm_webhook : option string) :
  Relay.CRM_WEBHOOK (Relay.config_of_env sync_key crm_webhook) <> EmptyString /\
  (In Startup.WarnWebhook
      (Startup.startup_warnings (Relay.config_of_env sync_key crm_webhook)) <->
   Startup.includes "jewelsteps.com"
      (Relay.CRM_WEBHOOK (Relay.config_of_env sync_key crm_webhook)) = true) /\
  (truthy_string crm_webhook = false ->
   In Startup.WarnWebhook
      (Startup.startup_warnings (Relay.config_of_env sync_key crm_webhook))).
Proof.
  assert (Hne : Relay.CRM_WEBHOOK (Relay.config_of_env sync_key crm_webhook) <> EmptyString).
  { simpl. unfold Relay.env_or. destruct crm_webhook as [w|]; simpl; [|discriminate].
    destruct (w =? "")%string eqn:E; [discriminate|]. now apply String.eqb_neq in E. }
  assert (Hiff : In Startup.WarnWebhook
      (Startup.startup_warnings (Relay.config_of_env sync_key crm_webhook)) <->
   Startup.includes "jewelsteps.com"
      (Relay.CRM_WEBHOOK (Relay.config_of_env sync_key crm_webhook)) = true).
  { unfold Startup.startup_warnings. rewrite in_app_iff.
    apply String.eqb_neq in Hne.
    cbn [truthy]. rewrite Hne. cbn [negb orb].
    destruct (Startup.includes _ _); split; intros H; try discriminate.
    - reflexivity.
    - right. left. reflexivity.
    - destruct H as [H|[]].
      destruct (_ || _) in H; [destruct H as [H|[]]; discriminate|contradiction]. }
  split; [exact Hne|]. split; [exact Hiff|].
  intros Hw. apply Hiff.
  assert (E : Relay.CRM_WEBHOOK (Relay.config_of_env sync_key crm_webhook)
              = "https://crm.jewelsteps.com/api/whatsapp/sync.php"%string).
  { simpl. unfold Relay.env_or. destruct crm_webhook as [w|]; simpl in *; [|reflexivity].
    destruct (w =? "")%string; [reflexivity|discriminate]. }
  rewrite E. vm_compute. reflexivity.
Qed.

Lemma webhook_warning_exact_witness :
  In Startup.WarnWebhook (Startup.startup_warnings (Relay.config_of_env None None)).
Proof.
  exact (proj2 (proj2 (webhook_warning_exact None None)) eq_refl).
Defined.

(** X24.  On [SIGTERM] and on [SIGINT], when no client exists the
    handler calls [process.exit(0)] at once, whatever [client.close()]
    would do.  When a client exists it calls [client.close()] once and
    calls [process.exit(0)] once that call settles, by returning or by
    throwing: a failure to close is written to the console and does not
    keep the process from exiting with the code 0.  The handler sets no
    timeout on the call, and [close] here is what the settled call
    comes to. *)
Theorem shutdown_exits_once_close_settles (sig : Shutdown.Signal) (s : Supervisor.State)
    (close : Completion unit) :
  (exists w,
     Shutdown.on_signal sig s close =
       (Shutdown.LogSignal sig :: w ++ [Shutdown.Exit 0], Normal tt) /\
     (In Shutdown.Close w <-> Supervisor.client s <> None) /\
     (forall code, ~ In (Shutdown.Exit code) w) /\
     (forall e, close = Throw e -> Supervisor.client s <> None ->
                w = [Shutdown.Close; Shutdown.ErrClose e])) /\
  (Supervisor.client s = None ->
   forall close',
     Shutdown.on_signal sig s close' =
       ([Shutdown.LogSignal sig; Shutdown.Exit 0], Normal tt)).
Proof.
  split.
  - unfold Shutdown.on_signal.
    destruct (Supervisor.client s) as [k|].
    + destruct close as [[]|e].
      * exists [Shutdown.Close; Shutdown.LogClosed]. split; [reflexivity|].
        split; [split; [discriminate|intros _; left; reflexivity]|].
        split; [intros code [H|[H|[]]]; discriminate|].
        intros e H. discriminate.
      * exists [Shutdown.Close; Shutdown.ErrClose e]. split; [reflexivity|].
        split; [split; [discriminate|intros _; left; reflexivity]|].
        split; [intros code [H|[H|[]]]; discriminate|].
        intros e' H _. inversion H; subst. reflexivity.
    + exists []. split; [reflexivity|].
      split; [split; [intros []|intros H; contradiction H; reflexivity]|].
      split; [intros code []|].
      intros e _ H. contradiction H. reflexivity.
  - intros Hk close'. unfold Shutdown.on_signal. rewrite Hk. reflexivity.
Qed.

End StartupShutdownFacts.

(* ================================================================== *)
(** ** Who changes the connection flag *)
(* ================================================================== *)

Section ConnectionFlag.
Import Supervisor.

(** X25.  Only a [CONNECTED] report of the adapter sets the connection
    flag, and only a [DISCONNECTED] report or a failed liveness probe
    clears it: after the monitor has cleared the flag, the gateway
    stays closed until the adapter reports [CONNECTED] again. *)
Theorem connection_flag_changes (e : Event) (s s' : State)
  (Hstep : step e s = Some s') :
  (isConnected s = false -> isConnected s' = true -> e = StateChange CONNECTED) /\
  (isConnected s = true -> isConnected s' = false ->
   e = StateChange DISCONNECTED \/ e = IntervalFires false).
Proof.
  destruct e as [i c|ok| |state|ok|]; simpl in Hstep.
  6:{ destruct (inFlight s); [discriminate|]. inversion Hstep; subst; clear Hstep.
      destruct (registration_throws_effect s) as (_ & _ & _ & Hb & _).
      rewrite Hb. split; congruence. }
  - destruct (remove_nth i (timeouts s)) as [l|]; [|discriminate].
    inversion Hstep; subst; clear Hstep.
    destruct (enter_effect c (clear_timeout l s)) as (_ & _ & _ & _ & _ & Hb).
    rewrite Hb. simpl. split; congruence.
  - destruct (inFlight s); [discriminate|]. inversion Hstep; subst; clear Hstep.
    unfold initializeWhatsApp_settle. destruct ok.
    + simpl. split; congruence.
    + destruct (catch_frame (set_inFlight (Nat.pred (inFlight s)) s)) as (_ & Hb & _).
      rewrite Hb. simpl. split; congruence.
  - destruct (client s); [|discriminate]. inversion Hstep; subst. simpl.
    split; congruence.
  - destruct (client s); [|discriminate]. inversion Hstep; subst; clear Hstep.
    destruct (state =? CONNECTED)%string eqn:Ec.
    + apply String.eqb_eq in Ec; subst state.
      destruct (onStateChange_connected s) as (Hb & _). rewrite Hb.
      split; [reflexivity|discriminate].
    + destruct (state =? DISCONNECTED)%string eqn:Ed.
      * apply String.eqb_eq in Ed; subst state.
        assert (Hb : isConnected (onStateChange DISCONNECTED s) = false).
        { unfold onStateChange; simpl.
          destruct (reconnectAttempts s <? MAX_RECONNECT_ATTEMPTS); reflexivity. }
        rewrite Hb. split; [discriminate|auto].
      * destruct (onStateChange_other state s Ec Ed) as (_ & _ & _ & Hb & _).
        rewrite Hb. split; congruence.
  - destruct (intervals s); [discriminate|]. inversion Hstep; subst; clear Hstep.
    split.
    + intros Hf Ht. apply livenessCheck_connected in Ht. congruence.
    + intros Ht Hf. right. destruct ok; [|reflexivity].
      unfold livenessCheck in Hf. rewrite Ht in Hf.
      destruct (client s); simpl in Hf; congruence.
Qed.

Lemma connection_flag_changes_witness :
  step (IntervalFires false) connected_session
    = Some (livenessCheck false connected_session) /\
  (isConnected connected_session = true ->
   isConnected (livenessCheck false connected_session) = false ->
   IntervalFires false = StateChange DISCONNECTED \/ IntervalFires false = IntervalFires false).
Proof.
  assert (H : step (IntervalFires false) connected_session
              = Some (livenessCheck false connected_session)) by reflexivity.
  split; [exact H|].
  exact (proj2 (connection_flag_changes _ _ _ H)).
Defined.

End ConnectionFlag.
